(** * The What-If scoring engine of [WhatIfSection.tsx]

    A shallow embedding of the factor normalizer ([computeFactorScore]), the
    score aggregator ([computeOverallScore]), the adjustment rules
    ([adjustedValues], [applyPreset]) and the comparison computed by
    [runSimulation], followed by the properties the specification states
    about them.

    The program computes on JavaScript numbers.  The embedding is written
    once, over an interface [JSNumber] of the operations the source uses, and
    read at two number types:
    - [float], IEEE 754 binary64, which is what the JavaScript engine
      computes;
    - [Q], exact rational arithmetic, an idealisation of it (the
      specification speaks of real numbers).  Before rounding the two agree
      up to rounding error; a score rounded to one decimal can fall on the
      other side of a tie and differ by one step, 0.1
      ([exact_and_binary64_differ_at_ties]).

    Properties of ranges, of order and of structure are proved over [Q] for
    all values.  A property that rounding error can break is stated as the
    code computes it or with a tolerance, and is evaluated in binary64 on
    the settings that the sliders and the presets allow. *)

From Stdlib Require Import QArith Qminmax Qabs Qround Lqa Lia ZArith List String Bool.
From Stdlib Require PrimFloat FloatOps SpecFloat Uint63.
From Stdlib Require Import Sorted.
Import ListNotations.

Local Open Scope Q_scope.

(** ** JavaScript numbers *)

Declare Scope js_scope.
Delimit Scope js_scope with js.

(** The operations of [number] that the source uses.  [lit] reads a decimal
    literal of the source text. *)
Class JSNumber (N : Type) : Type := {
  lit : Q -> N;
  add : N -> N -> N;
  sub : N -> N -> N;
  mul : N -> N -> N;
  div : N -> N -> N;
  Math_max : N -> N -> N;
  Math_min : N -> N -> N;
  Math_abs : N -> N;
  Math_round : N -> N;
  gtb : N -> N -> bool;
  ltb : N -> N -> bool;
  geb : N -> N -> bool
}.

Infix "+" := add : js_scope.
Infix "-" := sub : js_scope.
Infix "*" := mul : js_scope.
Infix "/" := div : js_scope.
Infix ">?" := gtb (at level 70) : js_scope.
Infix "<?" := ltb (at level 70) : js_scope.
Infix ">=?" := geb (at level 70) : js_scope.

(** *** Exact rationals

    The operations on rationals: an idealisation, without the rounding of
    each binary64 operation. *)

(** [Math.round] is the nearest integer, a tie going towards plus infinity. *)
Definition Qround_half_up (x : Q) : Q := inject_Z (Qfloor (x + (1 # 2))).

#[export] Instance JSNumber_Q : JSNumber Q := {
  lit q := q;
  add := Qplus;
  sub := Qminus;
  mul := Qmult;
  div := Qdiv;
  Math_max := Qmax;
  Math_min := Qmin;
  Math_abs := Qabs;
  Math_round := Qround_half_up;
  gtb x y := negb (Qle_bool x y);
  ltb x y := negb (Qle_bool y x);
  geb x y := Qle_bool y x
}.

(** *** binary64 *)

Module Binary64.

Definition of_Z (z : Z) : PrimFloat.float :=
  match z with
  | Z0 => PrimFloat.zero
  | Zpos _ => PrimFloat.of_uint63 (Uint63.of_Z z)
  | Zneg p => PrimFloat.opp (PrimFloat.of_uint63 (Uint63.of_Z (Zpos p)))
  end.

(** A decimal literal is the double nearest to it: the correctly rounded
    quotient of two integers below 2^53. *)
Definition of_literal (q : Q) : PrimFloat.float :=
  PrimFloat.div (of_Z (Qnum q)) (of_Z (Zpos (Qden q))).

(** [Math.max] and [Math.min] return NaN as soon as one argument is NaN, and
    order -0 below +0. *)
Definition max (x y : PrimFloat.float) : PrimFloat.float :=
  if PrimFloat.is_nan x || PrimFloat.is_nan y then PrimFloat.nan
  else if PrimFloat.ltb x y then y
  else if PrimFloat.ltb y x then x
  else if PrimFloat.get_sign x then y else x.

Definition min (x y : PrimFloat.float) : PrimFloat.float :=
  if PrimFloat.is_nan x || PrimFloat.is_nan y then PrimFloat.nan
  else if PrimFloat.ltb y x then y
  else if PrimFloat.ltb x y then x
  else if PrimFloat.get_sign x then x else y.

(** [Math.round]: a double with a non-negative exponent is an integer
    already; otherwise x = n / 2^(-e) with n = m or n = -m, and
    floor (x + 1/2) is computed on the integers; a negative x that rounds to
    zero gives -0.  NaN, the infinities and the zeros are returned as they
    are. *)
Definition round (x : PrimFloat.float) : PrimFloat.float :=
  match FloatOps.Prim2SF x with
  | SpecFloat.S754_finite s m e =>
      if (0 <=? e)%Z then x
      else
        let n := if s then Zneg m else Zpos m in
        let r := ((2 * n + 2 ^ (- e)) / 2 ^ (1 - e))%Z in
        if (r =? 0)%Z && s then PrimFloat.neg_zero else of_Z r
  | _ => x
  end.

End Binary64.

#[export] Instance JSNumber_float : JSNumber PrimFloat.float := {
  lit := Binary64.of_literal;
  add := PrimFloat.add;
  sub := PrimFloat.sub;
  mul := PrimFloat.mul;
  div := PrimFloat.div;
  Math_max := Binary64.max;
  Math_min := Binary64.min;
  Math_abs := PrimFloat.abs;
  Math_round := Binary64.round;
  gtb x y := PrimFloat.ltb y x;
  ltb x y := PrimFloat.ltb x y;
  geb x y := PrimFloat.leb y x
}.

(** ** Data model *)

(** An object with one entry per factor: [WEIGHTS] and the score tables. *)
Record PerFactor (A : Type) : Type := mkPerFactor {
  satisfaction : A;
  training : A;
  workHours : A;
  overtime : A;
  sickDays : A
}.
Arguments mkPerFactor {A}.
Arguments satisfaction {A}.
Arguments training {A}.
Arguments workHours {A}.
Arguments overtime {A}.
Arguments sickDays {A}.

(** The raw factor values: the [baseline] state and [adjustedValues]. *)
Module Values.
Record t (N : Type) : Type := mk {
  satisfaction : N;
  trainingHours : N;
  workHours : N;
  overtime : N;
  sickDays : N
}.
Arguments mk {N}.
Arguments satisfaction {N}.
Arguments trainingHours {N}.
Arguments workHours {N}.
Arguments overtime {N}.
Arguments sickDays {N}.
End Values.

Inductive Category : Type := Low | Medium | High.

Inductive Direction : Type := positive | negative | neutral.

Record ImpactEntry (N : Type) : Type := mkImpactEntry {
  factor : string;
  impact : N;
  direction : Direction
}.
Arguments mkImpactEntry {N}.
Arguments factor {N}.
Arguments impact {N}.
Arguments direction {N}.

Record ScenarioResult (N : Type) : Type := mkScenarioResult {
  baselineScore : N;
  newScore : N;
  delta : N;
  percentChange : N;
  category : Category;
  impactBreakdown : list (ImpactEntry N)
}.
Arguments mkScenarioResult {N}.
Arguments baselineScore {N}.
Arguments newScore {N}.
Arguments delta {N}.
Arguments percentChange {N}.
Arguments category {N}.
Arguments impactBreakdown {N}.

(** A preset.  Every entry of [adjustments] is optional; the [icon] and the
    [color] of the card take no part in the computation and are left out. *)
Record Scenario : Type := mkScenario {
  name : string;
  description : string;
  adjustments : PerFactor (option Q)
}.

(** The five delta sliders, each a one-element array read at index 0. *)
Record Deltas (N : Type) : Type := mkDeltas {
  satisfactionDelta : N;
  trainingDelta : N;
  workHoursDelta : N;
  overtimeDelta : N;
  sickDaysDelta : N
}.
Arguments mkDeltas {N}.
Arguments satisfactionDelta {N}.
Arguments trainingDelta {N}.
Arguments workHoursDelta {N}.
Arguments overtimeDelta {N}.
Arguments sickDaysDelta {N}.

(** ** The program *)

Section Engine.

Context {N : Type} `{JSNumber N}.
Local Open Scope string_scope.
Local Open Scope js_scope.

(** Normalized weights that sum to 1. *)
Definition WEIGHTS : PerFactor N := {|
  satisfaction := lit 0.30;
  training := lit 0.25;
  workHours := lit 0.18;
  overtime := lit 0.15;
  sickDays := lit 0.12
|}.

(** Convert raw factor values to 0-100 scores. *)
Definition computeFactorScore (factor : string) (value : N) : N :=
  if String.eqb factor "satisfaction" then
    Math_max (lit 0) (Math_min (lit 100) (((value - lit 1) / lit 4) * lit 100))
  else if String.eqb factor "training" then
    Math_max (lit 0) (Math_min (lit 100) ((value / lit 80) * lit 100))
  else if String.eqb factor "workHours" then
    let deviation := Math_abs (value - lit 40) in
    Math_max (lit 0) (Math_min (lit 100) (lit 100 - (deviation * lit 2.5)))
  else if String.eqb factor "overtime" then
    Math_max (lit 0) (Math_min (lit 100) (lit 100 - (value * lit 2.5)))
  else if String.eqb factor "sickDays" then
    Math_max (lit 0) (Math_min (lit 100) (lit 100 - (value * lit 5)))
  else
    lit 50.

(** The five factor scores of a set of values, as [computeOverallScore] and
    [runSimulation] both build them. *)
Definition factorScores (values : Values.t N) : PerFactor N := {|
  satisfaction := computeFactorScore "satisfaction" (Values.satisfaction values);
  training := computeFactorScore "training" (Values.trainingHours values);
  workHours := computeFactorScore "workHours" (Values.workHours values);
  overtime := computeFactorScore "overtime" (Values.overtime values);
  sickDays := computeFactorScore "sickDays" (Values.sickDays values)
|}.

(** Compute overall score from factor values using normalized weights. *)
Definition computeOverallScore (values : Values.t N) : N :=
  let scores := factorScores values in
  satisfaction scores * satisfaction WEIGHTS +
  training scores * training WEIGHTS +
  workHours scores * workHours WEIGHTS +
  overtime scores * overtime WEIGHTS +
  sickDays scores * sickDays WEIGHTS.

(** Compute adjusted values from baseline + deltas. *)
Definition adjustedValues (baseline : Values.t N) (d : Deltas N) : Values.t N := {|
  Values.satisfaction :=
    Math_max (lit 1) (Math_min (lit 5) (Values.satisfaction baseline + satisfactionDelta d));
  Values.trainingHours :=
    Math_max (lit 0) (Math_min (lit 100) (Values.trainingHours baseline + trainingDelta d));
  Values.workHours :=
    Math_max (lit 20) (Math_min (lit 60) (Values.workHours baseline + workHoursDelta d));
  Values.overtime :=
    Math_max (lit 0) (Math_min (lit 40)
      (Values.overtime baseline + (Values.overtime baseline * overtimeDelta d / lit 100)));
  Values.sickDays :=
    Math_max (lit 0) (Math_min (lit 20) (Values.sickDays baseline + sickDaysDelta d))
|}.

(** One entry of [impactBreakdown]. *)
Definition impactEntry (label : string) (adjusted baseline weight : N) : ImpactEntry N := {|
  factor := label;
  impact := Math_round ((adjusted - baseline) * weight * lit 10) / lit 10;
  direction :=
    if adjusted >? baseline + lit 0.5 then positive
    else if adjusted <? baseline - lit 0.5 then negative
    else neutral
|}.

(** The result that [runSimulation] hands to [setResult], from the
    [baseline] and the [adjustedValues] of the render it closes over. *)
Definition runSimulation (baseline adjustedValues : Values.t N) : ScenarioResult N :=
  let baselineScore := computeOverallScore baseline in
  let newScore := computeOverallScore adjustedValues in
  let baselineFactorScores := factorScores baseline in
  let adjustedFactorScores := factorScores adjustedValues in
  let impactBreakdown := [
    impactEntry "Satisfaction" (satisfaction adjustedFactorScores)
      (satisfaction baselineFactorScores) (satisfaction WEIGHTS);
    impactEntry "Training" (training adjustedFactorScores)
      (training baselineFactorScores) (training WEIGHTS);
    impactEntry "Work Hours" (workHours adjustedFactorScores)
      (workHours baselineFactorScores) (workHours WEIGHTS);
    impactEntry "Overtime" (overtime adjustedFactorScores)
      (overtime baselineFactorScores) (overtime WEIGHTS);
    impactEntry "Sick Days" (sickDays adjustedFactorScores)
      (sickDays baselineFactorScores) (sickDays WEIGHTS)
  ] in
  let roundedBaselineScore := Math_round (baselineScore * lit 10) / lit 10 in
  let roundedNewScore := Math_round (newScore * lit 10) / lit 10 in
  let delta := Math_round ((roundedNewScore - roundedBaselineScore) * lit 10) / lit 10 in
  let percentChange :=
    if roundedBaselineScore >? lit 0
    then Math_round ((delta / roundedBaselineScore) * lit 1000) / lit 10
    else lit 0 in
  {| baselineScore := roundedBaselineScore;
     newScore := roundedNewScore;
     delta := delta;
     percentChange := percentChange;
     category :=
       if roundedNewScore >=? lit 75 then High
       else if roundedNewScore >=? lit 50 then Medium
       else Low;
     impactBreakdown := impactBreakdown |}.

(** The deltas after [applyPreset]: all cleared, then every adjustment the
    scenario defines is set. *)
Definition applyPreset (scenario : Scenario) : Deltas N :=
  let pick (a : option Q) : N :=
    match a with Some x => lit x | None => lit 0 end in
  {| satisfactionDelta := pick (satisfaction (adjustments scenario));
     trainingDelta := pick (training (adjustments scenario));
     workHoursDelta := pick (workHours (adjustments scenario));
     overtimeDelta := pick (overtime (adjustments scenario));
     sickDaysDelta := pick (sickDays (adjustments scenario)) |}.

(** Baseline values (current state). *)
Definition baseline : Values.t N := {|
  Values.satisfaction := lit 3.8;
  Values.trainingHours := lit 35;
  Values.workHours := lit 43;
  Values.overtime := lit 10;
  Values.sickDays := lit 5
|}.

End Engine.

Definition noAdjustment : PerFactor (option Q) :=
  mkPerFactor None None None None None.

Definition presetScenarios : list Scenario := [
  mkScenario "Training Boost" "+20 training hours"
    (mkPerFactor None (Some 20) None None None);
  mkScenario "Work-Life Balance" "-50% overtime"
    (mkPerFactor None None None (Some (-50)) None);
  mkScenario "Engagement Drive" "+0.5 satisfaction"
    (mkPerFactor (Some 0.5) None None None None);
  mkScenario "Wellness Program" "-2 sick days"
    (mkPerFactor None None None None (Some (-2)));
  mkScenario "Full Optimization" "All factors improved"
    (mkPerFactor (Some 0.3) (Some 10) None (Some (-25)) None)
]%string.

Definition trainingBoost : Scenario :=
  nth 0 presetScenarios (mkScenario "" "" noAdjustment).

(** ** Definitions of the specification *)

(** [round1] of the specification: round to one decimal place. *)
Definition round1 (x : Q) : Q := Qround_half_up (x * 10) / 10.


(** ** Inputs of the scenarios *)

(** The adjusted values once the "Training Boost" preset is applied. *)
Definition boosted {N : Type} `{JSNumber N} : Values.t N :=
  adjustedValues baseline (applyPreset trainingBoost).


(** Every factor score is 100, respectively 0. *)
Definition allAt100 {N : Type} `{JSNumber N} : Values.t N :=
  Values.mk (lit 5) (lit 80) (lit 40) (lit 0) (lit 0).
Definition allAt0 {N : Type} `{JSNumber N} : Values.t N :=
  Values.mk (lit 1) (lit 0) (lit 0) (lit 40) (lit 20).



(** ** Domains and reset *)

(** The deltas after [resetAll]: every slider back at 0. *)
Definition zeroDeltas {N : Type} `{JSNumber N} : Deltas N :=
  mkDeltas (lit 0) (lit 0) (lit 0) (lit 0) (lit 0).

(** The domains of the five values, as the bounds [adjustedValues] clamps
    to. *)
Definition inDomain (v : Values.t Q) : bool :=
  Qle_bool 1 (Values.satisfaction v) && Qle_bool (Values.satisfaction v) 5 &&
  Qle_bool 0 (Values.trainingHours v) && Qle_bool (Values.trainingHours v) 100 &&
  Qle_bool 20 (Values.workHours v) && Qle_bool (Values.workHours v) 60 &&
  Qle_bool 0 (Values.overtime v) && Qle_bool (Values.overtime v) 40 &&
  Qle_bool 0 (Values.sickDays v) && Qle_bool (Values.sickDays v) 20.

(** Equal field by field. *)
Definition Values_eq (x y : Values.t Q) : Prop :=
  Values.satisfaction x == Values.satisfaction y /\
  Values.trainingHours x == Values.trainingHours y /\
  Values.workHours x == Values.workHours y /\
  Values.overtime x == Values.overtime y /\
  Values.sickDays x == Values.sickDays y.

(** The baseline with ten work hours a week, below the domain. *)
Definition tenWorkHours : Values.t Q := Values.mk 3.8 35 10 10 5.

(** The entry of the impact breakdown at a position, in the order
    Satisfaction, Training, Work Hours, Overtime, Sick Days. *)
Definition entryAt (i : nat) (r : ScenarioResult Q) : ImpactEntry Q :=
  nth i (impactBreakdown r) (mkImpactEntry "" 0 neutral).

(** The baseline with a satisfaction of 3.82 instead of 3.8. *)
Definition slightlyHappier : Values.t Q := Values.mk 3.82 35 43 10 5.

(** ** The charts *)

(** A row of [comparisonChartData]. *)
Module Bar.
Record t (N : Type) : Type := mk {
  factor : string;
  baseline : N;
  adjusted : N;
  weight : string
}.
Arguments mk {N}.
Arguments factor {N}.
Arguments baseline {N}.
Arguments adjusted {N}.
Arguments weight {N}.
End Bar.

(** A row of [radarData]. *)
Module Radar.
Record t (N : Type) : Type := mk {
  metric : string;
  baseline : N;
  adjusted : N
}.
Arguments mk {N}.
Arguments metric {N}.
Arguments baseline {N}.
Arguments adjusted {N}.
End Radar.

Section Charts.

Context {N : Type} `{JSNumber N}.
Local Open Scope string_scope.
Local Open Scope js_scope.

(** The conversion of a number to a string that a template literal applies;
    it is the runtime's and is left open. *)
Variable toString : N -> string.

(** Bar chart shows ABSOLUTE scores with baseline vs adjusted comparison. *)
Definition comparisonChartData (baseline adjustedValues : Values.t N) : list (Bar.t N) :=
  let baselineFactorScores := factorScores baseline in
  let adjustedFactorScores := factorScores adjustedValues in
  [ Bar.mk "Satisfaction"
      (Math_round (satisfaction baselineFactorScores))
      (Math_round (satisfaction adjustedFactorScores))
      (String.append (toString (satisfaction WEIGHTS * lit 100)) "%");
    Bar.mk "Training"
      (Math_round (training baselineFactorScores))
      (Math_round (training adjustedFactorScores))
      (String.append (toString (training WEIGHTS * lit 100)) "%");
    Bar.mk "Work Hours"
      (Math_round (workHours baselineFactorScores))
      (Math_round (workHours adjustedFactorScores))
      (String.append (toString (workHours WEIGHTS * lit 100)) "%");
    Bar.mk "Overtime"
      (Math_round (overtime baselineFactorScores))
      (Math_round (overtime adjustedFactorScores))
      (String.append (toString (overtime WEIGHTS * lit 100)) "%");
    Bar.mk "Sick Days"
      (Math_round (sickDays baselineFactorScores))
      (Math_round (sickDays adjustedFactorScores))
      (String.append (toString (sickDays WEIGHTS * lit 100)) "%") ].

Definition radarData (baseline adjustedValues : Values.t N) : list (Radar.t N) :=
  let baselineFactorScores := factorScores baseline in
  let adjustedFactorScores := factorScores adjustedValues in
  [ Radar.mk "Satisfaction" (Math_round (satisfaction baselineFactorScores))
      (Math_round (satisfaction adjustedFactorScores));
    Radar.mk "Training" (Math_round (training baselineFactorScores))
      (Math_round (training adjustedFactorScores));
    Radar.mk "Work Hours" (Math_round (workHours baselineFactorScores))
      (Math_round (workHours adjustedFactorScores));
    Radar.mk "Overtime" (Math_round (overtime baselineFactorScores))
      (Math_round (overtime adjustedFactorScores));
    Radar.mk "Sick Days" (Math_round (sickDays baselineFactorScores))
      (Math_round (sickDays adjustedFactorScores)) ].

(** The numbers behind the five weight labels. *)
Definition weightPercents : list N :=
  [ satisfaction WEIGHTS * lit 100; training WEIGHTS * lit 100;
    workHours WEIGHTS * lit 100; overtime WEIGHTS * lit 100;
    sickDays WEIGHTS * lit 100 ].

End Charts.

(** A whole number between 0 and 100. *)
Definition wholeScore (x : Q) : Prop :=
  exists k : Z, (0 <= k <= 100)%Z /\ x = inject_Z k.

(** ** The component: state, handlers and timers *)

(** [WhatIfSection] keeps its state in hooks and reacts to clicks and to
    timers.  A handler is a closure of the render that created it: it reads
    the [baseline] and the [adjustedValues] of that render, also when it runs
    after later state changes.  A pending timer is modelled by its callback
    together with the values the callback captured. *)
Module Component.

Section Machine.

Context {N : Type} `{JSNumber N}.

(** The value of the [baseline] hook at the first render. *)
Definition initialBaseline : Values.t N := baseline.

(** The two callbacks the component hands to [setTimeout]: the auto-run of
    [applyPreset] (150 ms), which calls the [runSimulation] of its render,
    and the body of [runSimulation] that computes the result (400 ms). *)
Inductive Callback : Type :=
| AutoRun (capturedBaseline capturedAdjusted : Values.t N)
| Finish (capturedBaseline capturedAdjusted : Values.t N).

Inductive Slider : Type :=
| SatisfactionSlider
| TrainingSlider
| WorkHoursSlider
| OvertimeSlider
| SickDaysSlider.

Record State : Type := mkState {
  baseline : Values.t N;
  deltas : Deltas N;
  selectedDepartment : string;
  isSimulating : bool;
  result : option (ScenarioResult N);
  activeScenario : option string;
  autoRunRef : option nat;
  timers : list (nat * Callback);
  nextTimer : nat
}.

(** The state of the first render.  Timer identifiers are positive. *)
Definition initial : State :=
  mkState initialBaseline zeroDeltas "All" false None None None [] 1.

Definition setDeltas (d : Deltas N) (st : State) : State :=
  mkState (baseline st) d (selectedDepartment st) (isSimulating st) (result st)
    (activeScenario st) (autoRunRef st) (timers st) (nextTimer st).

Definition setSelectedDepartment (s : string) (st : State) : State :=
  mkState (baseline st) (deltas st) s (isSimulating st) (result st)
    (activeScenario st) (autoRunRef st) (timers st) (nextTimer st).

Definition setIsSimulating (v : bool) (st : State) : State :=
  mkState (baseline st) (deltas st) (selectedDepartment st) v (result st)
    (activeScenario st) (autoRunRef st) (timers st) (nextTimer st).

Definition setResult (r : option (ScenarioResult N)) (st : State) : State :=
  mkState (baseline st) (deltas st) (selectedDepartment st) (isSimulating st) r
    (activeScenario st) (autoRunRef st) (timers st) (nextTimer st).

Definition setActiveScenario (s : option string) (st : State) : State :=
  mkState (baseline st) (deltas st) (selectedDepartment st) (isSimulating st) (result st)
    s (autoRunRef st) (timers st) (nextTimer st).

Definition setAutoRunRef (r : option nat) (st : State) : State :=
  mkState (baseline st) (deltas st) (selectedDepartment st) (isSimulating st) (result st)
    (activeScenario st) r (timers st) (nextTimer st).

Definition setTimers (l : list (nat * Callback)) (st : State) : State :=
  mkState (baseline st) (deltas st) (selectedDepartment st) (isSimulating st) (result st)
    (activeScenario st) (autoRunRef st) l (nextTimer st).

(** [setTimeout]: the callback is queued under a fresh identifier. *)
Definition setTimeout (cb : Callback) (st : State) : nat * State :=
  (nextTimer st,
   mkState (baseline st) (deltas st) (selectedDepartment st) (isSimulating st) (result st)
     (activeScenario st) (autoRunRef st) (timers st ++ [(nextTimer st, cb)])
     (S (nextTimer st))).

(** [clearTimeout]: a timer that has fired or was cleared is not there, and
    nothing happens. *)
Definition clearTimeout (id : nat) (st : State) : State :=
  setTimers (filter (fun t => negb (Nat.eqb (fst t) id)) (timers st)) st.

(** The [adjustedValues] memo of the render of a state. *)
Definition adjustedValuesOf (st : State) : Values.t N :=
  adjustedValues (baseline st) (deltas st).

(** The [runSimulation] of a render with the given values: the spinner is
    switched on and the computation is scheduled. *)
Definition runSimulationOf (b a : Values.t N) (st : State) : State :=
  snd (setTimeout (Finish b a) (setIsSimulating true st)).

(** What the scheduled computation does when its timer fires. *)
Definition finishSimulation (b a : Values.t N) (st : State) : State :=
  setIsSimulating false (setResult (Some (runSimulation b a)) st).

(** [applyPreset]: the scenario becomes active, the deltas are cleared and
    set, a pending auto-run is cancelled, and the [runSimulation] of the
    current render is scheduled. *)
Definition onApplyPreset (scenario : Scenario) (st : State) : State :=
  let st1 := setDeltas (applyPreset scenario) (setActiveScenario (Some (name scenario)) st) in
  let st2 := match autoRunRef st with
             | Some id => clearTimeout id st1
             | None => st1
             end in
  let (id, st3) := setTimeout (AutoRun (baseline st) (adjustedValuesOf st)) st2 in
  setAutoRunRef (Some id) st3.

(** The "Run Simulation" button, disabled while [isSimulating]. *)
Definition onRunSimulation (st : State) : State :=
  if isSimulating st then st
  else runSimulationOf (baseline st) (adjustedValuesOf st) st.

Definition resetAll (st : State) : State :=
  setResult None (setDeltas zeroDeltas (setActiveScenario None st)).

(** A slider hands its new value to the setter of its delta. *)
Definition onSlider (s : Slider) (v : N) (st : State) : State :=
  let d := deltas st in
  setDeltas
    match s with
    | SatisfactionSlider =>
        mkDeltas v (trainingDelta d) (workHoursDelta d) (overtimeDelta d) (sickDaysDelta d)
    | TrainingSlider =>
        mkDeltas (satisfactionDelta d) v (workHoursDelta d) (overtimeDelta d) (sickDaysDelta d)
    | WorkHoursSlider =>
        mkDeltas (satisfactionDelta d) (trainingDelta d) v (overtimeDelta d) (sickDaysDelta d)
    | OvertimeSlider =>
        mkDeltas (satisfactionDelta d) (trainingDelta d) (workHoursDelta d) v (sickDaysDelta d)
    | SickDaysSlider =>
        mkDeltas (satisfactionDelta d) (trainingDelta d) (workHoursDelta d) (overtimeDelta d) v
    end st.

(** A callback runs. *)
Definition invoke (cb : Callback) (st : State) : State :=
  match cb with
  | AutoRun b a => runSimulationOf b a st
  | Finish b a => finishSimulation b a st
  end.

(** A timer fires: it leaves the queue and its callback runs. *)
Definition fire (id : nat) (st : State) : State :=
  match find (fun t => Nat.eqb (fst t) id) (timers st) with
  | None => st
  | Some (_, cb) => invoke cb (clearTimeout id st)
  end.

(** Cleanup auto-run timeout on unmount. *)
Definition cleanup (st : State) : State :=
  match autoRunRef st with
  | Some id => clearTimeout id st
  | None => st
  end.

(** The "Current Baseline Score" badge. *)
Definition baselineBadge (st : State) : N :=
  (Math_round (computeOverallScore (baseline st) * lit 10) / lit 10)%js.

(** Whether the card of a preset is drawn as active. *)
Definition isActive (scenario : Scenario) (st : State) : bool :=
  match activeScenario st with
  | Some n => String.eqb n (name scenario)
  | None => false
  end.

Inductive Event : Type :=
| ClickPreset (scenario : Scenario)
| ClickRun
| ClickReset
| MoveSlider (s : Slider) (v : N)
| SelectDepartment (d : string)
| Fire (id : nat).

Definition step (e : Event) (st : State) : State :=
  match e with
  | ClickPreset scenario => onApplyPreset scenario st
  | ClickRun => onRunSimulation st
  | ClickReset => resetAll st
  | MoveSlider s v => onSlider s v st
  | SelectDepartment d => setSelectedDepartment d st
  | Fire id => fire id st
  end.

Definition run (events : list Event) (st : State) : State :=
  fold_left (fun s e => step e s) events st.

Definition isAutoRun (t : nat * Callback) : bool :=
  match snd t with
  | AutoRun _ _ => true
  | Finish _ _ => false
  end.

(** The values a callback captured. *)
Definition captured (cb : Callback) : Values.t N * Values.t N :=
  match cb with
  | AutoRun b a => (b, a)
  | Finish b a => (b, a)
  end.

(** Values made from the initial baseline and some position of the
    sliders. *)
Definition fromSliders (b a : Values.t N) : Prop :=
  b = initialBaseline /\ exists d, a = adjustedValues initialBaseline d.

(** What every state of the component satisfies: the baseline is the
    initial one; the pending timers have distinct identifiers below the next
    one; a pending auto-run is the one [autoRunRef] holds; and every pending
    callback and every result was made from the baseline and some position
    of the sliders. *)
Definition invariant (st : State) : Prop :=
  baseline st = initialBaseline /\
  Forall (fun t => fst t < nextTimer st)%nat (timers st) /\
  NoDup (map fst (timers st)) /\
  (forall t, In t (timers st) -> isAutoRun t = true -> autoRunRef st = Some (fst t)) /\
  (forall t, In t (timers st) -> fromSliders (fst (captured (snd t))) (snd (captured (snd t)))) /\
  (forall r, result st = Some r ->
     exists d, r = runSimulation initialBaseline (adjustedValues initialBaseline d)).

End Machine.

Arguments Callback N : clear implicits.
Arguments State N : clear implicits.
Arguments Event N : clear implicits.

End Component.

(** ** Navigation: [TopNav] and [Dashboard] *)

(** [String.prototype.toUpperCase] on ASCII text, which is all the labels
    hold. *)
Definition upperAscii (c : Ascii.ascii) : Ascii.ascii :=
  let n := Ascii.nat_of_ascii c in
  if (97 <=? n)%nat && (n <=? 122)%nat then Ascii.ascii_of_nat (n - 32) else c.

Fixpoint toUpperCase (s : string) : string :=
  match s with
  | EmptyString => EmptyString
  | String c rest => String (upperAscii c) (toUpperCase rest)
  end.

(** [Array.prototype.slice] for a non-negative start and an optional
    non-negative end. *)
Definition slice {A : Type} (start : nat) (stop : option nat) (l : list A) : list A :=
  match stop with
  | Some e => firstn (e - start) (skipn start l)
  | None => skipn start l
  end.

Module TopNav.

(** An entry of the bar; its [icon] is left out. *)
Record NavItem : Type := mkNavItem {
  id : string;
  label : string
}.

Definition navItems : list NavItem := [
  mkNavItem "home" "Home";
  mkNavItem "overview" "Overview";
  mkNavItem "upload" "Dataset Upload";
  mkNavItem "prediction" "Prediction";
  mkNavItem "whatif" "What-If Analysis";
  mkNavItem "productivity" "Productivity";
  mkNavItem "analytics" "Analytics";
  mkNavItem "models" "ML Models";
  mkNavItem "regression" "Regression";
  mkNavItem "departments" "Departments";
  mkNavItem "employees" "Employees"
]%string.

(** What a click does besides closing the mobile menu. *)
Inductive Effect : Type :=
| navigate (path : string)
| onSectionChange (section : string).

Definition handleNavClick (id : string) : Effect :=
  if String.eqb id "home" then navigate "/" else onSectionChange id.

(** Split items for dropdown on smaller screens. *)
Definition visibleItems : list NavItem := slice 0 (Some 6%nat) navItems.
Definition moreItems : list NavItem := slice 6 None navItems.

(** The highlight of a button of the desktop bar, of the tablet bar and of
    the mobile menu. *)
Definition isActive (activeSection : string) (item : NavItem) : bool :=
  if String.eqb (id item) "home" then false else String.eqb activeSection (id item).

(** The highlight of the MORE button of the tablet bar. *)
Definition moreIsActive (activeSection : string) : bool :=
  existsb (fun item => String.eqb activeSection (id item)) moreItems.

(** The title of the mobile bar. *)
Definition mobileTitle (activeSection : string) : string :=
  match find (fun i => String.eqb (id i) activeSection) navItems with
  | Some i =>
      let t := toUpperCase (label i) in
      if String.eqb t "" then "OVERVIEW" else t
  | None => "OVERVIEW"
  end%string.

(** How many buttons a bar highlights. *)
Definition desktopHighlights (activeSection : string) : nat :=
  List.length (filter (isActive activeSection) navItems).

Definition tabletHighlights (activeSection : string) : nat :=
  (List.length (filter (isActive activeSection) visibleItems) +
   (if moreIsActive activeSection then 1 else 0))%nat.

End TopNav.

Module Dashboard.

Record SectionInfo : Type := mkSection {
  id : string;
  title : string;
  subtitle : string
}.

Definition sections : list SectionInfo := [
  mkSection "overview" "Dashboard Overview" "Employee performance insights at a glance";
  mkSection "upload" "Dataset Upload" "Upload and preprocess your employee data";
  mkSection "prediction" "Performance Prediction" "ML-powered employee performance forecasting";
  mkSection "whatif" "What-If Scenarios" "Simulate changes and predict performance impact";
  mkSection "productivity" "Productivity Trends" "Team performance and productivity over time";
  mkSection "analytics" "Productivity Analytics" "Deep dive into performance drivers";
  mkSection "models" "ML Models" "Compare model performance and run predictions";
  mkSection "regression" "Regression Analysis" "Actual vs predicted performance analysis";
  mkSection "departments" "Department Analytics" "Performance breakdown by department";
  mkSection "employees" "Employee Directory" "View and manage employee data"
]%string.

(** [sections.find(s => s.id === activeSection) || sections[0]] *)
Definition currentSection (activeSection : string) : SectionInfo :=
  match find (fun s => String.eqb (id s) activeSection) sections with
  | Some s => s
  | None => hd (mkSection "" "" "") sections
  end.

Section Scrolling.

Context {N : Type} `{JSNumber N}.
Local Open Scope string_scope.
Local Open Scope js_scope.

(** Handle scroll to update active section.  [sectionRefs] lists the
    sections in the iteration order of the map, each with the [offsetTop] of
    its element; the result is the new [activeSection]. *)
Definition handleScroll (isScrollingFromClick : bool) (sectionRefs : list (string * N))
  (scrollTop : N) (activeSection : string) : string :=
  if isScrollingFromClick then activeSection
  else
    let headerOffset := lit 120 in
    fold_left
      (fun currentActive entry =>
         let offsetTop := snd entry - headerOffset in
         if scrollTop >=? offsetTop - lit 100 then fst entry else currentActive)
      sectionRefs "overview".

(** [sectionRefs.current.get(section)] *)
Definition getRef (section : string) (sectionRefs : list (string * N)) : option N :=
  option_map snd (find (fun entry => String.eqb (fst entry) section) sectionRefs).

(** Where [handleSectionChange] scrolls to, when the section has an
    element. *)
Definition scrollTarget (section : string) (sectionRefs : list (string * N)) : option N :=
  match getRef section sectionRefs with
  | Some refOffsetTop =>
      let headerOffset := lit 100 in
      Some (refOffsetTop - headerOffset)
  | None => None
  end.

End Scrolling.

End Dashboard.

(** Three sections, 900 and 1100 pixels tall, as [sectionRefs] holds them. *)
Definition threeSections : list (string * Q) :=
  [("overview"%string, 0); ("upload"%string, 900); ("prediction"%string, 2000)].

(** ** Rounding at any number type, and what the sliders can set *)

(** [round1] of the specification as the code writes it,
    [Math.round(x * 10) / 10], at any number type. *)
Definition round1_at {N : Type} `{JSNumber N} (x : N) : N :=
  (Math_round (x * lit 10) / lit 10)%js.


Record SliderRange : Type := mkSliderRange {
  sliderMin : Q;
  sliderMax : Q;
  sliderStep : Q
}.

(** The [min], [max] and [step] of the five sliders. *)
Definition sliderRange (s : Component.Slider) : SliderRange :=
  match s with
  | Component.SatisfactionSlider => mkSliderRange (-2) 2 0.1
  | Component.TrainingSlider => mkSliderRange (-30) 50 5
  | Component.WorkHoursSlider => mkSliderRange (-15) 15 1
  | Component.OvertimeSlider => mkSliderRange (-100) 100 10
  | Component.SickDaysSlider => mkSliderRange (-5) 10 1
  end.

(** The positions of a slider, min, min + step, ..., max, as the decimal
    numbers a slider reports. *)
Definition sliderPositions (s : Component.Slider) : list Q :=
  let r := sliderRange s in
  map (fun k => Qred (sliderMin r + inject_Z (Z.of_nat k) * sliderStep r))
    (seq 0 (S (Z.to_nat (Qfloor ((sliderMax r - sliderMin r) / sliderStep r))))).

(** What a preset sets the delta of a slider to. *)
Definition adjustmentOf (s : Component.Slider) (scenario : Scenario) : option Q :=
  match s with
  | Component.SatisfactionSlider => satisfaction (adjustments scenario)
  | Component.TrainingSlider => training (adjustments scenario)
  | Component.WorkHoursSlider => workHours (adjustments scenario)
  | Component.OvertimeSlider => overtime (adjustments scenario)
  | Component.SickDaysSlider => sickDays (adjustments scenario)
  end.

(** Every value the delta of a slider can take: its positions, and what the
    presets set it to (the -25 of "Full Optimization" is no position of the
    overtime slider). *)
Definition settableDeltas (s : Component.Slider) : list Q :=
  sliderPositions s ++
  flat_map (fun scenario =>
              match adjustmentOf s scenario with
              | Some v => [v]
              | None => []
              end) presetScenarios.



(** One slider moved, the others at 0. *)
Definition moved {N : Type} `{JSNumber N} (s : Component.Slider) (p : N) : Deltas N :=
  match s with
  | Component.SatisfactionSlider => mkDeltas p (lit 0) (lit 0) (lit 0) (lit 0)
  | Component.TrainingSlider => mkDeltas (lit 0) p (lit 0) (lit 0) (lit 0)
  | Component.WorkHoursSlider => mkDeltas (lit 0) (lit 0) p (lit 0) (lit 0)
  | Component.OvertimeSlider => mkDeltas (lit 0) (lit 0) (lit 0) p (lit 0)
  | Component.SickDaysSlider => mkDeltas (lit 0) (lit 0) (lit 0) (lit 0) p
  end.

(** The entry of the impact breakdown that belongs to a slider. *)
Definition entryOf {N : Type} `{JSNumber N} (s : Component.Slider)
  (r : ScenarioResult N) : ImpactEntry N :=
  nth match s with
      | Component.SatisfactionSlider => 0
      | Component.TrainingSlider => 1
      | Component.WorkHoursSlider => 2
      | Component.OvertimeSlider => 3
      | Component.SickDaysSlider => 4
      end%nat
    (impactBreakdown r) (mkImpactEntry "" (lit 0) neutral).

(** A baseline whose only scores above 0 are those of work hours and sick
    days, and the same with 3.7 sick days more. *)
Definition lowBaseline {N : Type} `{JSNumber N} : Values.t N :=
  Values.mk (lit 1) (lit 0) (lit 20) (lit 40) (lit 8.3).
Definition lowAdjusted {N : Type} `{JSNumber N} : Values.t N :=
  adjustedValues lowBaseline (moved Component.SickDaysSlider (lit 3.7)).

Definition moreSatisfied {N : Type} `{JSNumber N} : Values.t N :=
  adjustedValues baseline (moved Component.SatisfactionSlider (lit 0.3)).

(** The sliders at -2, -30, +12, +10 % and 0. *)
Definition mixedSliders {N : Type} `{JSNumber N} : Values.t N :=
  adjustedValues baseline (mkDeltas (lit (-2)) (lit (-30)) (lit 12) (lit 10) (lit 0)).


(** The five sliders. *)
Definition allSliders : list Component.Slider :=
  [ Component.SatisfactionSlider; Component.TrainingSlider; Component.WorkHoursSlider;
    Component.OvertimeSlider; Component.SickDaysSlider ].

(** The roundings of a comparison stay within their bounds, up to 1e-9: the
    delta against the difference of the rounded scores, each rounded score
    against the unrounded one (0.05), and the delta against the difference
    of the unrounded scores (0.1). *)
Definition roundingWithin {N : Type} `{JSNumber N} (b a : Values.t N) : bool :=
  let r := runSimulation b a in
  let eps := lit (1 # 1000000000) in
  ((eps >=? Math_abs (delta r - (newScore r - baselineScore r))) &&
   (lit 0.05 + eps >=? Math_abs (baselineScore r - computeOverallScore b)) &&
   (lit 0.05 + eps >=? Math_abs (newScore r - computeOverallScore a)) &&
   (lit 0.1 + eps >=? Math_abs (delta r - (computeOverallScore a - computeOverallScore b))))%js.

(** The sliders at 0, -25, -15, -90 % and -3. *)
Definition manySliders {N : Type} `{JSNumber N} : Values.t N :=
  adjustedValues baseline (mkDeltas (lit 0) (lit (-25)) (lit (-15)) (lit (-90)) (lit (-3))).

(** The adjusted values checked in binary64: the baseline with one slider
    at each value its delta can take, with each preset applied, and with
    the two settings of several sliders above. *)
Definition checkedSettings {N : Type} `{JSNumber N} : list (Values.t N) :=
  flat_map
    (fun s => map (fun p => adjustedValues baseline (moved s (lit p))) (settableDeltas s))
    allSliders
  ++ map (fun scenario => adjustedValues baseline (applyPreset scenario)) presetScenarios
  ++ [ mixedSliders; manySliders ].

(** The percent change is within one step, 0.1, of
    [round1 (delta / baselineScore * 100)], up to 1e-9. *)
Definition percentWithin {N : Type} `{JSNumber N} (b a : Values.t N) : bool :=
  let r := runSimulation b a in
  (lit 0.1 + lit (1 # 1000000000) >=?
   Math_abs (percentChange r - round1_at (delta r / baselineScore r * lit 100)))%js.


(** ** Properties *)

(** Unfold the number interface at [Q]. *)
Ltac js_unfold :=
  cbv [lit add sub mul div Math_max Math_min Math_abs Math_round gtb ltb geb
       JSNumber_Q] in *.

Lemma Qabs_spec (x : Q) : 0 <= x /\ Qabs x == x \/ x <= 0 /\ Qabs x == - x.
Proof.
  destruct (Qlt_le_dec x 0) as [Hneg | Hpos].
  - right. split; [lra |]. apply Qabs_neg. lra.
  - left. split; [exact Hpos |]. apply Qabs_pos, Hpos.
Qed.

Ltac q_name_max a b :=
  let m := fresh "m" in
  pose proof (Q.max_spec a b); set (m := Qmax a b) in *; clearbody m.
Ltac q_name_min a b :=
  let m := fresh "m" in
  pose proof (Q.min_spec a b); set (m := Qmin a b) in *; clearbody m.
Ltac q_name_abs a :=
  let m := fresh "m" in
  pose proof (Qabs_spec a); set (m := Qabs a) in *; clearbody m.

(** Division by a constant of the source is multiplication by its inverse. *)
Ltac q_consts :=
  unfold Qdiv in *;
  repeat match goal with
         | |- context [Qinv (Qmake ?n ?d)] =>
             let c := eval vm_compute in (Qinv (Qmake n d)) in
             change (Qinv (Qmake n d)) with c in *
         | _ : context [Qinv (Qmake ?n ?d)] |- _ =>
             let c := eval vm_compute in (Qinv (Qmake n d)) in
             change (Qinv (Qmake n d)) with c in *
         end.

(** Case analysis on every [Qmax], [Qmin] and [Qabs] of the goal and of the
    hypotheses, then linear arithmetic. *)
Ltac q_cases :=
  q_consts;
  repeat match goal with
         | |- context [Qmax ?a ?b] => q_name_max a b
         | _ : context [Qmax ?a ?b] |- _ => q_name_max a b
         | |- context [Qmin ?a ?b] => q_name_min a b
         | _ : context [Qmin ?a ?b] |- _ => q_name_min a b
         | |- context [Qabs ?a] => q_name_abs a
         | _ : context [Qabs ?a] |- _ => q_name_abs a
         end;
  lra.

Lemma clamp_range (lo hi x : Q) : lo <= hi -> lo <= Qmax lo (Qmin hi x) <= hi.
Proof. intros Hle. q_cases. Qed.

Lemma computeFactorScore_range (f : string) (v : Q) :
  0 <= computeFactorScore f v <= 100.
Proof.
  unfold computeFactorScore; js_unfold.
  repeat match goal with
         | |- context [if ?b then _ else _] => destruct b
         end; try (apply clamp_range; lra); lra.
Qed.

Lemma computeOverallScore_range (values : Values.t Q) :
  0 <= computeOverallScore values <= 100.
Proof.
  unfold computeOverallScore, factorScores, WEIGHTS;
    cbn [satisfaction training workHours overtime sickDays].
  pose proof (computeFactorScore_range "satisfaction" (Values.satisfaction values)).
  pose proof (computeFactorScore_range "training" (Values.trainingHours values)).
  pose proof (computeFactorScore_range "workHours" (Values.workHours values)).
  pose proof (computeFactorScore_range "overtime" (Values.overtime values)).
  pose proof (computeFactorScore_range "sickDays" (Values.sickDays values)).
  js_unfold. lra.
Qed.

(** *** Rounding *)

#[export] Instance Qround_half_up_comp : Proper (Qeq ==> Qeq) Qround_half_up.
Proof.
  intros x y Hxy. unfold Qround_half_up.
  assert (E : x + (1 # 2) == y + (1 # 2)) by (rewrite Hxy; reflexivity).
  rewrite (Qfloor_comp _ _ E). reflexivity.
Qed.

#[export] Instance round1_comp : Proper (Qeq ==> Qeq) round1.
Proof. intros x y Hxy. unfold round1. rewrite Hxy. reflexivity. Qed.

Lemma Qround_half_up_lower (y : Q) (k : Z) :
  inject_Z k <= y + (1 # 2) -> inject_Z k <= Qround_half_up y.
Proof.
  intros Hk. unfold Qround_half_up. rewrite <- Zle_Qle.
  rewrite <- (Qfloor_Z k). apply Qfloor_resp_le, Hk.
Qed.

Lemma Qround_half_up_upper (y : Q) (k : Z) :
  y + (1 # 2) < inject_Z k -> Qround_half_up y <= inject_Z (k - 1).
Proof.
  intros Hk. unfold Qround_half_up. rewrite <- Zle_Qle.
  assert (Hlt : (Qfloor (y + (1 # 2)) < k)%Z).
  { rewrite Zlt_Qlt. pose proof (Qfloor_le (y + (1 # 2))). lra. }
  lia.
Qed.

(** [Math.round] on ties and around zero, in both number types. *)
Example Math_round_Q :
  Math_round 2.5 == 3 /\ Math_round (-2.5) == -2 /\ Math_round 2.4 == 2 /\
  Math_round (-0.2) == 0 /\ Math_round (-15.125) == -15.
Proof. repeat split. Qed.

Example Math_round_binary64 :
  Math_round (N:=PrimFloat.float) (lit 2.5) = lit 3 /\
  Math_round (N:=PrimFloat.float) (lit (-2.5)) = lit (-2) /\
  Math_round (N:=PrimFloat.float) (lit 2.4) = lit 2 /\
  Math_round (N:=PrimFloat.float) (lit (-0.2)) = PrimFloat.neg_zero /\
  Math_round (N:=PrimFloat.float) (lit (-15.125)) = lit (-15) /\
  Math_round (N:=PrimFloat.float) (lit 688.375) = lit 688.
Proof. repeat split. Qed.

(** *** Boundedness *)

(** C3: for every input value, also one outside the factor's domain, each
    per-factor normalization returns a score in [0,100] (and so does the
    neutral score of an unknown factor name); hence [computeOverallScore]
    returns a value in [0,100] for any factor values.  Both functions are
    total.  In binary64 the scores of the infinities are 0 or 100, and the
    overall score of the best and of the worst values is exactly 100 and 0. *)
Theorem C3_scores_within_0_100 :
  (forall (f : string) (v : Q), 0 <= computeFactorScore f v <= 100) /\
  (forall values : Values.t Q, 0 <= computeOverallScore values <= 100) /\
  (computeOverallScore (N:=Q) allAt100 == 100 /\ computeOverallScore (N:=Q) allAt0 == 0) /\
  (factorScores (Values.mk PrimFloat.infinity PrimFloat.infinity PrimFloat.infinity
                   PrimFloat.infinity PrimFloat.infinity) =
     mkPerFactor (lit 100) (lit 100) (lit 0) (lit 0) (lit 0) /\
   factorScores (Values.mk PrimFloat.neg_infinity PrimFloat.neg_infinity
                   PrimFloat.neg_infinity PrimFloat.neg_infinity PrimFloat.neg_infinity) =
     mkPerFactor (lit 0) (lit 0) (lit 0) (lit 100) (lit 100) /\
   computeOverallScore (N:=PrimFloat.float) allAt100 = lit 100 /\
   computeOverallScore (N:=PrimFloat.float) allAt0 = lit 0).
Proof.
  split; [exact computeFactorScore_range |].
  split; [exact computeOverallScore_range |].
  repeat split; vm_compute; reflexivity.
Qed.

(** *** The five transforms *)

Lemma score_satisfaction (v : Q) :
  computeFactorScore "satisfaction" v = Qmax 0 (Qmin 100 ((v - 1) / 4 * 100)).
Proof. reflexivity. Qed.

Lemma score_training (v : Q) :
  computeFactorScore "training" v = Qmax 0 (Qmin 100 (v / 80 * 100)).
Proof. reflexivity. Qed.

Lemma score_workHours (v : Q) :
  computeFactorScore "workHours" v = Qmax 0 (Qmin 100 (100 - Qabs (v - 40) * 2.5)).
Proof. reflexivity. Qed.

Lemma score_overtime (v : Q) :
  computeFactorScore "overtime" v = Qmax 0 (Qmin 100 (100 - v * 2.5)).
Proof. reflexivity. Qed.

Lemma score_sickDays (v : Q) :
  computeFactorScore "sickDays" v = Qmax 0 (Qmin 100 (100 - v * 5)).
Proof. reflexivity. Qed.

Create Rewrite HintDb scores.
#[export] Hint Rewrite score_satisfaction score_training score_workHours
  score_overtime score_sickDays : scores.

Lemma computeOverallScore_eq (v : Values.t Q) :
  computeOverallScore v =
    computeFactorScore "satisfaction" (Values.satisfaction v) * 0.30 +
    computeFactorScore "training" (Values.trainingHours v) * 0.25 +
    computeFactorScore "workHours" (Values.workHours v) * 0.18 +
    computeFactorScore "overtime" (Values.overtime v) * 0.15 +
    computeFactorScore "sickDays" (Values.sickDays v) * 0.12.
Proof. reflexivity. Qed.

Ltac values_simpl :=
  cbn [Values.satisfaction Values.trainingHours Values.workHours Values.overtime
       Values.sickDays] in *.

(** *** Monotonicity *)

Lemma satisfaction_score_mono (x y : Q) :
  x <= y -> computeFactorScore "satisfaction" x <= computeFactorScore "satisfaction" y.
Proof. intros Hxy. autorewrite with scores. q_cases. Qed.

Lemma training_score_mono (x y : Q) :
  x <= y -> computeFactorScore "training" x <= computeFactorScore "training" y.
Proof. intros Hxy. autorewrite with scores. q_cases. Qed.

Lemma overtime_score_antimono (x y : Q) :
  x <= y -> computeFactorScore "overtime" y <= computeFactorScore "overtime" x.
Proof. intros Hxy. autorewrite with scores. q_cases. Qed.

Lemma sickDays_score_antimono (x y : Q) :
  x <= y -> computeFactorScore "sickDays" y <= computeFactorScore "sickDays" x.
Proof. intros Hxy. autorewrite with scores. q_cases. Qed.

Lemma workHours_score_max (w : Q) :
  computeFactorScore "workHours" w <= 100 /\
  (computeFactorScore "workHours" w == 100 <-> w == 40).
Proof.
  autorewrite with scores. split; [| split; intros Hw]; q_cases.
Qed.

(** C4: [computeOverallScore] never decreases when [satisfaction] or
    [trainingHours] grows and never increases when [overtime] or [sickDays]
    grows, the other four values fixed; the [workHours] score is at most the
    score 100 of 40 hours and reaches it at 40 hours only. *)
Theorem C4_monotone_in_each_factor :
  (forall s1 s2 t w o d, s1 <= s2 ->
     computeOverallScore (Values.mk s1 t w o d) <= computeOverallScore (Values.mk s2 t w o d)) /\
  (forall s t1 t2 w o d, t1 <= t2 ->
     computeOverallScore (Values.mk s t1 w o d) <= computeOverallScore (Values.mk s t2 w o d)) /\
  (forall s t w o1 o2 d, o1 <= o2 ->
     computeOverallScore (Values.mk s t w o2 d) <= computeOverallScore (Values.mk s t w o1 d)) /\
  (forall s t w o d1 d2, d1 <= d2 ->
     computeOverallScore (Values.mk s t w o d2) <= computeOverallScore (Values.mk s t w o d1)) /\
  (forall w, computeFactorScore "workHours" w <= computeFactorScore "workHours" 40) /\
  (forall w, computeFactorScore "workHours" w == computeFactorScore "workHours" 40 <-> w == 40).
Proof.
  repeat split.
  - intros s1 s2 t w o d Hle. rewrite !computeOverallScore_eq; values_simpl.
    pose proof (satisfaction_score_mono _ _ Hle). lra.
  - intros s t1 t2 w o d Hle. rewrite !computeOverallScore_eq; values_simpl.
    pose proof (training_score_mono _ _ Hle). lra.
  - intros s t w o1 o2 d Hle. rewrite !computeOverallScore_eq; values_simpl.
    pose proof (overtime_score_antimono _ _ Hle). lra.
  - intros s t w o d1 d2 Hle. rewrite !computeOverallScore_eq; values_simpl.
    pose proof (sickDays_score_antimono _ _ Hle). lra.
  - intros w. pose proof (workHours_score_max w) as [Hmax _].
    assert (E : computeFactorScore "workHours" 40 == 100) by reflexivity. lra.
  - assert (E : computeFactorScore "workHours" 40 == 100) by reflexivity.
    intros Hw. apply (workHours_score_max w). lra.
  - assert (E : computeFactorScore "workHours" 40 == 100) by reflexivity.
    intros Hw. apply (workHours_score_max w) in Hw. lra.
Qed.

Lemma C4_monotone_witness :
  computeOverallScore (Values.mk 3 35 43 10 5) <= computeOverallScore (Values.mk 4 35 43 10 5) /\
  computeOverallScore (Values.mk 3 20 43 10 5) <= computeOverallScore (Values.mk 3 35 43 10 5) /\
  computeOverallScore (Values.mk 3 35 43 12 5) <= computeOverallScore (Values.mk 3 35 43 10 5) /\
  computeOverallScore (Values.mk 3 35 43 10 7) <= computeOverallScore (Values.mk 3 35 43 10 5).
Proof.
  destruct C4_monotone_in_each_factor as (Hs & Ht & Ho & Hd & _).
  repeat split; [apply Hs | apply Ht | apply Ho | apply Hd]; discriminate.
Defined.

(** *** The concrete scenarios *)

(** Refute a closed comparison by evaluation. *)
Ltac q_refute :=
  vm_compute; let Hc := fresh "Hc" in
  intros Hc; first [discriminate Hc | apply Hc; reflexivity].

(** C1, as the specification states it, fails: the overall score of the
    baseline is not within 0.1 of 70.0875, and it does not round to 70.1. *)
Lemma C1_baseline_is_not_70_1 :
  ~ (Qabs (computeOverallScore (N:=Q) baseline - 70.0875) <= 0.1) /\
  ~ (baselineScore (runSimulation (N:=Q) baseline baseline) == 70.1).
Proof. split; q_refute. Qed.

(** C1, amended: the baseline has the factor scores 70, 43.75, 92.5, 75 and
    75, its overall score is 68.8375, and the score rounded to one decimal
    place is 68.8; the binary64 computation gives the same factor scores and
    the same rounded score. *)
Theorem C1_baseline_scores :
  satisfaction (factorScores (N:=Q) baseline) == 70 /\
  training (factorScores (N:=Q) baseline) == 43.75 /\
  workHours (factorScores (N:=Q) baseline) == 92.5 /\
  overtime (factorScores (N:=Q) baseline) == 75 /\
  sickDays (factorScores (N:=Q) baseline) == 75 /\
  computeOverallScore (N:=Q) baseline == 68.8375 /\
  round1 (computeOverallScore baseline) == 68.8 /\
  baselineScore (runSimulation (N:=Q) baseline baseline) == 68.8 /\
  factorScores (N:=PrimFloat.float) baseline =
    mkPerFactor (lit 70) (lit 43.75) (lit 92.5) (lit 75) (lit 75) /\
  baselineScore (runSimulation (N:=PrimFloat.float) baseline baseline) = lit 68.8.
Proof. repeat split; vm_compute; reflexivity. Qed.

(** C2, as the specification states it, fails: after "Training Boost" the
    overall score is not within 0.1 of 74.25, the new score is not 74.3, the
    delta is not 4.2 and the category is not Medium. *)
Lemma C2_training_boost_is_not_medium :
  ~ (Qabs (computeOverallScore (N:=Q) boosted - 74.25) <= 0.1) /\
  ~ (newScore (runSimulation (N:=Q) baseline boosted) == 74.3) /\
  ~ (delta (runSimulation (N:=Q) baseline boosted) == 4.2) /\
  category (runSimulation (N:=Q) baseline boosted) <> Medium.
Proof.
  split; [| split; [| split]]; q_refute.
Qed.

(** C2, amended: "Training Boost" (training delta +20) turns the baseline's
    35 training hours into 55 and the training score into 68.75; the overall
    score becomes 75.0875, which rounds to 75.1; the delta from the rounded
    baseline 68.8 is 6.3 and the category is High.  The binary64 computation
    gives the same rounded score, delta and category. *)
Theorem C2_training_boost :
  name trainingBoost = "Training Boost"%string /\
  training (adjustments trainingBoost) = Some 20 /\
  Values.trainingHours (N:=Q) boosted == 55 /\
  training (factorScores (N:=Q) boosted) == 68.75 /\
  computeOverallScore (N:=Q) boosted == 75.0875 /\
  newScore (runSimulation (N:=Q) baseline boosted) == 75.1 /\
  delta (runSimulation (N:=Q) baseline boosted) == 6.3 /\
  category (runSimulation (N:=Q) baseline boosted) = High /\
  newScore (runSimulation (N:=PrimFloat.float) baseline boosted) = lit 75.1 /\
  delta (runSimulation (N:=PrimFloat.float) baseline boosted) = lit 6.3 /\
  category (runSimulation (N:=PrimFloat.float) baseline boosted) = High.
Proof. repeat split; vm_compute; reflexivity. Qed.

(** *** The comparison *)

Section Comparison.

Variables b a : Values.t Q.

Lemma baselineScore_eq :
  baselineScore (runSimulation b a) = round1 (computeOverallScore b).
Proof. reflexivity. Qed.

Lemma newScore_eq :
  newScore (runSimulation b a) = round1 (computeOverallScore a).
Proof. reflexivity. Qed.

Lemma delta_eq :
  delta (runSimulation b a) =
    round1 (newScore (runSimulation b a) - baselineScore (runSimulation b a)).
Proof. reflexivity. Qed.

Lemma percentChange_eq :
  percentChange (runSimulation b a) =
    if Qle_bool (baselineScore (runSimulation b a)) 0 then 0
    else Qround_half_up
           (delta (runSimulation b a) / baselineScore (runSimulation b a) * 1000) / 10.
Proof.
  unfold runSimulation; cbn [percentChange baselineScore delta]; js_unfold.
  match goal with |- context [Qle_bool ?x 0] => destruct (Qle_bool x 0) end; reflexivity.
Qed.


Lemma impactBreakdown_eq :
  impactBreakdown (runSimulation b a) =
    [ impactEntry "Satisfaction" (satisfaction (factorScores a))
        (satisfaction (factorScores b)) 0.30;
      impactEntry "Training" (training (factorScores a))
        (training (factorScores b)) 0.25;
      impactEntry "Work Hours" (workHours (factorScores a))
        (workHours (factorScores b)) 0.18;
      impactEntry "Overtime" (overtime (factorScores a))
        (overtime (factorScores b)) 0.15;
      impactEntry "Sick Days" (sickDays (factorScores a))
        (sickDays (factorScores b)) 0.12 ].
Proof. reflexivity. Qed.

Lemma baselineScore_nonneg : 0 <= baselineScore (runSimulation b a).
Proof.
  rewrite baselineScore_eq. unfold round1.
  pose proof (computeOverallScore_range b) as [Hlo _].
  pose proof (Qround_half_up_lower (computeOverallScore b * 10) 0) as Hr.
  change (inject_Z 0) with 0 in Hr.
  assert (0 <= Qround_half_up (computeOverallScore b * 10)) by (apply Hr; lra).
  q_consts. lra.
Qed.

End Comparison.


(** In exact arithmetic [percentChange] is
    [round1 (delta / baselineScore * 100)] when the rounded baseline score is
    positive, and 0 when it is 0; it is never negative. *)
Lemma percentChange_exact (b a : Values.t Q) :
  (0 < baselineScore (runSimulation b a) ->
     percentChange (runSimulation b a) ==
       round1 (delta (runSimulation b a) / baselineScore (runSimulation b a) * 100)) /\
  (baselineScore (runSimulation b a) == 0 -> percentChange (runSimulation b a) == 0) /\
  0 <= baselineScore (runSimulation b a).
Proof.
  split; [| split].
  - intros Hpos. rewrite percentChange_eq.
    destruct (Qle_bool (baselineScore (runSimulation b a)) 0) eqn:E.
    + apply Qle_bool_iff in E. lra.
    + unfold round1.
      set (q := delta (runSimulation b a) / baselineScore (runSimulation b a)).
      assert (Eq : q * 100 * 10 == q * 1000) by ring.
      rewrite Eq. reflexivity.
  - intros Hz. rewrite percentChange_eq.
    destruct (Qle_bool (baselineScore (runSimulation b a)) 0) eqn:E.
    + reflexivity.
    + assert (~ baselineScore (runSimulation b a) <= 0)
        by (rewrite <- Qle_bool_iff; congruence).
      lra.
  - apply baselineScore_nonneg.
Qed.

(** C6, as the specification states it, fails in binary64.  For the baseline
    (1, 0, 20, 40, 8.3) and 3.7 sick days more the rounded baseline score is
    16, the delta -2.2, and the code's [percentChange],
    [Math.round(delta / 16 * 1000) / 10], is -13.7, whereas
    [round1 (delta / 16 * 100)], that is
    [Math.round(delta / 16 * 100 * 10) / 10], is -13.8: the product by 100
    and then by 10 lands just below the tie -137.5 that the product by 1000
    hits. *)
Lemma C6_percentChange_is_not_round1 :
  baselineScore (runSimulation (N:=PrimFloat.float) lowBaseline lowAdjusted) = lit 16 /\
  gtb (baselineScore (runSimulation (N:=PrimFloat.float) lowBaseline lowAdjusted)) (lit 0)
    = true /\
  percentChange (runSimulation (N:=PrimFloat.float) lowBaseline lowAdjusted) = lit (-13.7) /\
  round1_at
    (div (delta (runSimulation (N:=PrimFloat.float) lowBaseline lowAdjusted))
         (baselineScore (runSimulation (N:=PrimFloat.float) lowBaseline lowAdjusted))
     * lit 100)%js = lit (-13.8) /\
  PrimFloat.eqb
    (percentChange (runSimulation (N:=PrimFloat.float) lowBaseline lowAdjusted))
    (round1_at
       (div (delta (runSimulation (N:=PrimFloat.float) lowBaseline lowAdjusted))
            (baselineScore (runSimulation (N:=PrimFloat.float) lowBaseline lowAdjusted))
        * lit 100)%js) = false.
Proof. repeat split; vm_compute; reflexivity. Qed.

(** C6, amended: at every number type, binary64 included, [percentChange] is
    [Math.round((delta / baselineScore) * 1000) / 10] when the rounded
    baseline score is greater than 0, and 0 otherwise; nothing is thrown, and
    a zero baseline gives 0 in binary64, not NaN.  The rounded baseline score
    is never negative.  The percent change is within one step, 0.1, of
    [round1 (delta / baselineScore * 100)], up to 1e-9: for all values in
    exact arithmetic, and in binary64 for the comparison where the two
    differ and for the baseline against each checked setting of the
    sliders. *)
Theorem C6_percentChange_as_computed {N : Type} `{JSNumber N} (b a : Values.t N) :
  (gtb (baselineScore (runSimulation b a)) (lit 0) = true ->
   percentChange (runSimulation b a) =
     (Math_round (delta (runSimulation b a) / baselineScore (runSimulation b a) * lit 1000)
      / lit 10)%js) /\
  (gtb (baselineScore (runSimulation b a)) (lit 0) = false ->
   percentChange (runSimulation b a) = lit 0) /\
  (forall bq aq : Values.t Q,
     0 <= baselineScore (runSimulation bq aq) /\
     (0 < baselineScore (runSimulation bq aq) ->
      Qabs (percentChange (runSimulation bq aq) -
            round1 (delta (runSimulation bq aq) / baselineScore (runSimulation bq aq) * 100))
        <= 0.1 + (1 # 1000000000)) /\
     (baselineScore (runSimulation bq aq) == 0 -> percentChange (runSimulation bq aq) == 0)) /\
  (baselineScore (runSimulation (N:=PrimFloat.float) allAt0 baseline) = lit 0 /\
   percentChange (runSimulation (N:=PrimFloat.float) allAt0 baseline) = lit 0) /\
  percentWithin (N:=PrimFloat.float) lowBaseline lowAdjusted = true /\
  forallb (percentWithin (N:=PrimFloat.float) baseline) checkedSettings = true.
Proof.
  split; [| split; [| split; [| split; [| split]]]].
  - intros Hpos. unfold runSimulation in *; cbn [percentChange baselineScore delta] in *.
    rewrite Hpos. reflexivity.
  - intros Hzero. unfold runSimulation in *; cbn [percentChange baselineScore delta] in *.
    rewrite Hzero. reflexivity.
  - intros bq aq. destruct (percentChange_exact bq aq) as (Hpos & Hzero & Hnn).
    split; [exact Hnn |]. split; [| exact Hzero].
    intros Hlt. specialize (Hpos Hlt). q_cases.
  - split; vm_compute; reflexivity.
  - vm_compute. reflexivity.
  - vm_compute. reflexivity.
Qed.

Lemma C6_percentChange_as_computed_witness :
  percentChange (runSimulation (N:=PrimFloat.float) lowBaseline lowAdjusted) =
    (Math_round
       (delta (runSimulation (N:=PrimFloat.float) lowBaseline lowAdjusted) /
        baselineScore (runSimulation (N:=PrimFloat.float) lowBaseline lowAdjusted) * lit 1000)
     / lit 10)%js /\
  percentChange (runSimulation (N:=Q) allAt0 boosted) = 0.
Proof.
  split.
  - destruct (C6_percentChange_as_computed (N:=PrimFloat.float) lowBaseline lowAdjusted)
      as (Hpos & _).
    apply Hpos. vm_compute. reflexivity.
  - destruct (C6_percentChange_as_computed (N:=Q) allAt0 boosted) as (_ & Hzero & _).
    apply Hzero. vm_compute. reflexivity.
Defined.



(** *** Adjustment application *)





(** *** Rounding order *)


(** *** Impact decomposition *)








(** ** Further properties of the engine *)

(** *** Domains *)

Lemma inDomain_iff (v : Values.t Q) :
  inDomain v = true <->
  (1 <= Values.satisfaction v <= 5) /\
  (0 <= Values.trainingHours v <= 100) /\
  (20 <= Values.workHours v <= 60) /\
  (0 <= Values.overtime v <= 40) /\
  (0 <= Values.sickDays v <= 20).
Proof.
  unfold inDomain. rewrite !andb_true_iff, !Qle_bool_iff. tauto.
Qed.

Lemma adjustedValues_inDomain (b : Values.t Q) (d : Deltas Q) :
  inDomain (adjustedValues b d) = true.
Proof.
  apply inDomain_iff. unfold adjustedValues; values_simpl; js_unfold.
  repeat split; apply clamp_range; lra.
Qed.

Lemma adjustedValues_zero (b : Values.t Q) :
  inDomain b = true -> Values_eq (adjustedValues b zeroDeltas) b.
Proof.
  rewrite inDomain_iff. intros (Hs & Ht & Hw & Ho & Hd).
  unfold Values_eq, adjustedValues, zeroDeltas; values_simpl;
    cbn [satisfactionDelta trainingDelta workHoursDelta overtimeDelta sickDaysDelta];
    js_unfold.
  repeat split; q_cases.
Qed.

#[export] Instance Values_eq_equiv : Equivalence Values_eq.
Proof.
  split.
  - intros x. unfold Values_eq. repeat split; reflexivity.
  - intros x y (H1 & H2 & H3 & H4 & H5). unfold Values_eq.
    repeat split; symmetry; assumption.
  - intros x y z (H1 & H2 & H3 & H4 & H5) (G1 & G2 & G3 & G4 & G5). unfold Values_eq.
    repeat split; etransitivity; eassumption.
Qed.

Lemma computeFactorScore_comp (f : string) (x y : Q) :
  x == y -> computeFactorScore f x == computeFactorScore f y.
Proof.
  intros Hxy. unfold computeFactorScore; js_unfold.
  repeat match goal with
         | |- context [if ?c then _ else _] => destruct c
         end; try reflexivity; q_cases.
Qed.

#[export] Instance computeOverallScore_comp : Proper (Values_eq ==> Qeq) computeOverallScore.
Proof.
  intros x y (H1 & H2 & H3 & H4 & H5). rewrite !computeOverallScore_eq.
  rewrite (computeFactorScore_comp "satisfaction" _ _ H1),
    (computeFactorScore_comp "training" _ _ H2),
    (computeFactorScore_comp "workHours" _ _ H3),
    (computeFactorScore_comp "overtime" _ _ H4),
    (computeFactorScore_comp "sickDays" _ _ H5).
  reflexivity.
Qed.

(** X1: whatever the baseline and the deltas are, the adjusted values lie in
    the five domains, and adjusting them again with all deltas at 0 leaves
    them as they are. *)
Theorem adjusted_values_stay_in_domain (b : Values.t Q) (d : Deltas Q) :
  inDomain (adjustedValues b d) = true /\
  Values_eq (adjustedValues (adjustedValues b d) zeroDeltas) (adjustedValues b d).
Proof.
  split.
  - apply adjustedValues_inDomain.
  - apply adjustedValues_zero, adjustedValues_inDomain.
Qed.

(** *** Comparing equal scores *)

Lemma impactEntry_unchanged (label : string) (x y w : Q) :
  x == y ->
  direction (impactEntry label x y w) = neutral /\
  impact (impactEntry label x y w) == 0.
Proof.
  intros Hxy. unfold impactEntry; cbn [direction impact]; js_unfold. split.
  - assert (E1 : Qle_bool x (y + 0.5) = true) by (apply Qle_bool_iff; lra).
    assert (E2 : Qle_bool (y - 0.5) x = true) by (apply Qle_bool_iff; lra).
    rewrite E1, E2. reflexivity.
  - assert (E : (x - y) * w * 10 == 0) by (rewrite Hxy; ring).
    rewrite E. reflexivity.
Qed.

Lemma equal_scores_no_change (b a : Values.t Q) :
  computeOverallScore a == computeOverallScore b ->
  delta (runSimulation b a) == 0 /\ percentChange (runSimulation b a) == 0.
Proof.
  intros Heq.
  assert (Hd : delta (runSimulation b a) == 0).
  { rewrite delta_eq, baselineScore_eq, newScore_eq, Heq.
    generalize (round1 (computeOverallScore b)); intros r.
    assert (E : r - r == 0) by ring.
    rewrite E. reflexivity. }
  split; [exact Hd |].
  rewrite percentChange_eq.
  destruct (Qle_bool (baselineScore (runSimulation b a)) 0); [reflexivity |].
  rewrite Hd. generalize (baselineScore (runSimulation b a)); intros r.
  assert (E : 0 / r * 1000 == 0) by (unfold Qdiv; ring).
  rewrite E. reflexivity.
Qed.

Lemma unchanged_values_neutral (b a : Values.t Q) :
  Values_eq a b ->
  Forall (fun e => direction e = neutral /\ impact e == 0)
    (impactBreakdown (runSimulation b a)).
Proof.
  intros (H1 & H2 & H3 & H4 & H5). rewrite impactBreakdown_eq.
  unfold factorScores; cbn [satisfaction training workHours overtime sickDays].
  repeat (apply Forall_cons;
          [apply impactEntry_unchanged, computeFactorScore_comp; assumption |]).
  apply Forall_nil.
Qed.

(** X2: for a baseline inside the domains, the adjusted values with every
    delta at 0 (the state after [resetAll]) are the baseline itself, and the
    comparison then reports no change: delta 0, percent change 0, every
    entry neutral with impact 0.  The domain condition is needed: a baseline
    of 10 work hours is clamped to 20 and the comparison reports a delta of
    4.5. *)
Theorem reset_compares_baseline_with_itself (b : Values.t Q) :
  inDomain b = true ->
  Values_eq (adjustedValues b zeroDeltas) b /\
  delta (runSimulation b (adjustedValues b zeroDeltas)) == 0 /\
  percentChange (runSimulation b (adjustedValues b zeroDeltas)) == 0 /\
  Forall (fun e => direction e = neutral /\ impact e == 0)
    (impactBreakdown (runSimulation b (adjustedValues b zeroDeltas))) /\
  delta (runSimulation tenWorkHours (adjustedValues tenWorkHours zeroDeltas)) == 4.5.
Proof.
  intros Hdom. pose proof (adjustedValues_zero b Hdom) as Heq.
  split; [exact Heq |].
  assert (Hs : computeOverallScore (adjustedValues b zeroDeltas) == computeOverallScore b)
    by (rewrite Heq; reflexivity).
  destruct (equal_scores_no_change b _ Hs) as [Hd Hp].
  repeat split; try assumption.
  - apply unchanged_values_neutral, Heq.
Qed.

Lemma reset_compares_baseline_witness :
  delta (runSimulation (N:=Q) baseline (adjustedValues baseline zeroDeltas)) == 0.
Proof.
  assert (Hdom : inDomain baseline = true) by (vm_compute; reflexivity).
  destruct (reset_compares_baseline_with_itself baseline Hdom) as (_ & Hd & _).
  exact Hd.
Defined.

(** *** Rounded scores *)

Lemma Qround_half_up_bounds (x : Q) :
  x - (1 # 2) < Qround_half_up x <= x + (1 # 2).
Proof.
  unfold Qround_half_up.
  pose proof (Qfloor_le (x + (1 # 2))) as Hlo.
  pose proof (Qlt_floor (x + (1 # 2))) as Hhi.
  rewrite inject_Z_plus in Hhi. change (inject_Z 1) with 1 in Hhi. lra.
Qed.

Lemma Qround_half_up_Z (k : Z) : Qround_half_up (inject_Z k) == inject_Z k.
Proof.
  apply Qle_antisym.
  - replace k with (k + 1 - 1)%Z at 2 by lia.
    apply Qround_half_up_upper. rewrite inject_Z_plus.
    change (inject_Z 1) with 1. lra.
  - apply Qround_half_up_lower. lra.
Qed.

Lemma Qround_half_up_mono (x y : Q) :
  x <= y -> Qround_half_up x <= Qround_half_up y.
Proof.
  intros Hxy. unfold Qround_half_up. rewrite <- Zle_Qle.
  apply Qfloor_resp_le. lra.
Qed.

Lemma round1_mono (x y : Q) : x <= y -> round1 x <= round1 y.
Proof.
  intros Hxy. unfold round1.
  assert (H10 : x * 10 <= y * 10) by lra.
  apply Qround_half_up_mono in H10. q_consts. lra.
Qed.

Lemma round1_error (x : Q) : - (1 # 20) < round1 x - x <= 1 # 20.
Proof.
  unfold round1. pose proof (Qround_half_up_bounds (x * 10)). q_consts. lra.
Qed.

(** A rounded score is a whole number of tenths. *)
Lemma round1_tenths (x : Q) : exists k : Z, round1 x == inject_Z k / 10.
Proof. exists (Qfloor (x * 10 + (1 # 2))). reflexivity. Qed.

Lemma round1_of_tenths (k : Z) : round1 (inject_Z k / 10) == inject_Z k / 10.
Proof.
  unfold round1.
  assert (E : inject_Z k / 10 * 10 == inject_Z k) by field.
  rewrite E, Qround_half_up_Z. reflexivity.
Qed.

Lemma delta_exact (b a : Values.t Q) :
  delta (runSimulation b a) ==
    newScore (runSimulation b a) - baselineScore (runSimulation b a).
Proof.
  rewrite delta_eq, baselineScore_eq, newScore_eq.
  destruct (round1_tenths (computeOverallScore a)) as [n Hn].
  destruct (round1_tenths (computeOverallScore b)) as [m Hm].
  rewrite Hn, Hm.
  assert (E : inject_Z n / 10 - inject_Z m / 10 == inject_Z (n - m) / 10).
  { unfold Z.sub. rewrite inject_Z_plus, inject_Z_opp. field. }
  rewrite E. apply round1_of_tenths.
Qed.

(** X3: the last rounding removes noise only, and the roundings stay within
    their bounds, up to 1e-9: the delta is the difference of the two rounded
    scores, each rounded score is within 0.05 of the unrounded one, and the
    delta is within 0.1 of the difference of the unrounded scores.  In exact
    arithmetic this holds for all values (there the delta is the difference
    itself); in binary64 it is checked for the baseline with each slider at
    each value its delta can take, with each preset, and with the sliders at
    0, -25, -15, -90 % and -3. *)
Theorem delta_is_difference_of_rounded_scores (b a : Values.t Q) :
  Qabs (delta (runSimulation b a) -
        (newScore (runSimulation b a) - baselineScore (runSimulation b a)))
    <= 1 # 1000000000 /\
  Qabs (baselineScore (runSimulation b a) - computeOverallScore b)
    <= 0.05 + (1 # 1000000000) /\
  Qabs (newScore (runSimulation b a) - computeOverallScore a)
    <= 0.05 + (1 # 1000000000) /\
  Qabs (delta (runSimulation b a) - (computeOverallScore a - computeOverallScore b))
    <= 0.1 + (1 # 1000000000) /\
  forallb
    (fun s => forallb
                (fun p => roundingWithin (N:=PrimFloat.float) baseline
                            (adjustedValues baseline (moved s (lit p))))
                (settableDeltas s))
    allSliders = true /\
  forallb
    (fun scenario => roundingWithin (N:=PrimFloat.float) baseline
                       (adjustedValues baseline (applyPreset scenario)))
    presetScenarios = true /\
  roundingWithin (N:=PrimFloat.float) baseline manySliders = true.
Proof.
  pose proof (delta_exact b a) as Hd.
  rewrite baselineScore_eq, newScore_eq in *.
  pose proof (round1_error (computeOverallScore b)).
  pose proof (round1_error (computeOverallScore a)).
  split; [q_cases |]. split; [q_cases |]. split; [q_cases |]. split; [q_cases |].
  repeat split; vm_compute; reflexivity.
Qed.

(** *** Scores of values inside the domains *)

Lemma workHours_score_inDomain (w : Q) :
  20 <= w <= 60 -> 50 <= computeFactorScore "workHours" w.
Proof. intros Hw. autorewrite with scores. q_cases. Qed.

Lemma computeOverallScore_inDomain (v : Values.t Q) :
  inDomain v = true -> 9 <= computeOverallScore v.
Proof.
  rewrite inDomain_iff. intros (_ & _ & Hw & _ & _).
  rewrite computeOverallScore_eq.
  pose proof (computeFactorScore_range "satisfaction" (Values.satisfaction v)).
  pose proof (computeFactorScore_range "training" (Values.trainingHours v)).
  pose proof (workHours_score_inDomain _ Hw).
  pose proof (computeFactorScore_range "overtime" (Values.overtime v)).
  pose proof (computeFactorScore_range "sickDays" (Values.sickDays v)).
  lra.
Qed.

Lemma round1_lower (k : Z) (x : Q) : inject_Z k / 10 <= x -> inject_Z k / 10 <= round1 x.
Proof.
  intros Hk. rewrite <- (round1_of_tenths k). apply round1_mono, Hk.
Qed.

Lemma round1_at_least_9 (x : Q) : 9 <= x -> 9 <= round1 x.
Proof.
  intros Hx. assert (H9 : inject_Z 90 / 10 <= round1 x).
  { apply round1_lower. change (inject_Z 90) with 90. q_consts. lra. }
  change (inject_Z 90) with 90 in H9. q_consts. lra.
Qed.

(** X4: work hours between 20 and 60 score at least 50, so values inside the
    domains have an overall score of at least 9.  For such a baseline the
    rounded baseline score is positive, the guard against a division by zero
    is never taken, and the percent change is
    [Math.round((delta / baselineScore) * 1000) / 10]; the new score of
    adjusted values is at least 9 too.  In binary64 the guard is not taken
    for the baseline of the component either. *)
Theorem in_domain_baseline_is_positive (b : Values.t Q) (d : Deltas Q) :
  inDomain b = true ->
  9 <= computeOverallScore b /\
  9 <= baselineScore (runSimulation b (adjustedValues b d)) /\
  9 <= newScore (runSimulation b (adjustedValues b d)) /\
  percentChange (runSimulation b (adjustedValues b d)) =
    Qround_half_up
      (delta (runSimulation b (adjustedValues b d)) /
       baselineScore (runSimulation b (adjustedValues b d)) * 1000) / 10 /\
  (forall a : Values.t PrimFloat.float,
     gtb (baselineScore (runSimulation baseline a)) (lit 0) = true).
Proof.
  intros Hdom.
  pose proof (computeOverallScore_inDomain b Hdom) as Hb.
  pose proof (computeOverallScore_inDomain _ (adjustedValues_inDomain b d)) as Ha.
  assert (Hrb : 9 <= baselineScore (runSimulation b (adjustedValues b d))).
  { rewrite baselineScore_eq. apply round1_at_least_9, Hb. }
  assert (Hra : 9 <= newScore (runSimulation b (adjustedValues b d))).
  { rewrite newScore_eq. apply round1_at_least_9, Ha. }
  split; [exact Hb |]. split; [exact Hrb |]. split; [exact Hra |]. split.
  - rewrite percentChange_eq.
    destruct (Qle_bool (baselineScore (runSimulation b (adjustedValues b d))) 0) eqn:E.
    + apply Qle_bool_iff in E. lra.
    + reflexivity.
  - intros a. vm_compute. reflexivity.
Qed.

Lemma in_domain_baseline_witness :
  9 <= baselineScore (runSimulation (N:=Q) baseline (adjustedValues baseline zeroDeltas)).
Proof.
  assert (Hdom : inDomain baseline = true) by (vm_compute; reflexivity).
  destruct (in_domain_baseline_is_positive baseline zeroDeltas Hdom) as (_ & Hb & _).
  exact Hb.
Defined.

(** *** Sign of the change *)

Lemma percentChange_sign (b a : Values.t Q) :
  0 < baselineScore (runSimulation b a) ->
  (0 <= delta (runSimulation b a) -> 0 <= percentChange (runSimulation b a)) /\
  (delta (runSimulation b a) <= 0 -> percentChange (runSimulation b a) <= 0).
Proof.
  intros Hpos. rewrite percentChange_eq.
  destruct (Qle_bool (baselineScore (runSimulation b a)) 0) eqn:E.
  { apply Qle_bool_iff in E. lra. }
  generalize dependent (baselineScore (runSimulation b a)).
  generalize (delta (runSimulation b a)). intros dl r Hpos _.
  assert (Hinv : 0 < / r) by (apply Qinv_lt_0_compat, Hpos).
  split; intros Hd.
  - assert (Hq : 0 <= dl / r * 1000).
    { unfold Qdiv. pose proof (Qmult_le_0_compat dl (/ r) Hd). lra. }
    pose proof (Qround_half_up_lower (dl / r * 1000) 0) as Hr.
    change (inject_Z 0) with 0 in Hr.
    assert (0 <= Qround_half_up (dl / r * 1000)) by (apply Hr; lra).
    q_consts. lra.
  - assert (Hq : dl / r * 1000 <= 0).
    { unfold Qdiv. assert (Hn : 0 <= - dl) by lra.
      pose proof (Qmult_le_0_compat (- dl) (/ r) Hn). lra. }
    pose proof (Qround_half_up_mono _ _ Hq) as Hr.
    change (Qround_half_up 0) with 0 in Hr.
    q_consts. lra.
Qed.

(** X5: the comparison keeps the order of the unrounded scores: if the
    adjusted values score at least as much as the baseline, the delta is not
    negative, and if they score at most as much, it is not positive; when the
    rounded baseline score is positive the percent change has the same
    property. *)
Theorem change_follows_score_order (b a : Values.t Q) :
  (computeOverallScore b <= computeOverallScore a -> 0 <= delta (runSimulation b a)) /\
  (computeOverallScore a <= computeOverallScore b -> delta (runSimulation b a) <= 0) /\
  (0 < baselineScore (runSimulation b a) ->
   (computeOverallScore b <= computeOverallScore a -> 0 <= percentChange (runSimulation b a)) /\
   (computeOverallScore a <= computeOverallScore b -> percentChange (runSimulation b a) <= 0)).
Proof.
  pose proof (delta_exact b a) as Hd.
  assert (Hup : computeOverallScore b <= computeOverallScore a ->
                0 <= delta (runSimulation b a)).
  { intros Hle. apply round1_mono in Hle.
    rewrite baselineScore_eq, newScore_eq in Hd. lra. }
  assert (Hdown : computeOverallScore a <= computeOverallScore b ->
                  delta (runSimulation b a) <= 0).
  { intros Hle. apply round1_mono in Hle.
    rewrite baselineScore_eq, newScore_eq in Hd. lra. }
  repeat split; try assumption; intros Hle;
    apply (percentChange_sign b a); auto.
Qed.

Lemma change_follows_score_order_witness :
  0 <= delta (runSimulation (N:=Q) baseline boosted) /\
  0 <= percentChange (runSimulation (N:=Q) baseline boosted).
Proof.
  destruct (change_follows_score_order baseline boosted) as (Hup & _ & Hpc).
  split.
  - apply Hup. vm_compute. discriminate.
  - apply Hpc; vm_compute; [reflexivity | discriminate].
Defined.

(** *** Presets *)

Lemma computeOverallScore_mono (s1 s2 t1 t2 w o1 o2 d1 d2 : Q) :
  s1 <= s2 -> t1 <= t2 -> o2 <= o1 -> d2 <= d1 ->
  computeOverallScore (Values.mk s1 t1 w o1 d1) <= computeOverallScore (Values.mk s2 t2 w o2 d2).
Proof.
  intros Hs Ht Ho Hd. rewrite !computeOverallScore_eq; values_simpl.
  pose proof (satisfaction_score_mono _ _ Hs).
  pose proof (training_score_mono _ _ Ht).
  pose proof (overtime_score_antimono _ _ Ho).
  pose proof (sickDays_score_antimono _ _ Hd).
  lra.
Qed.

Lemma preset_improves_score (sc : Scenario) (b : Values.t Q) :
  In sc presetScenarios ->
  computeOverallScore (adjustedValues b zeroDeltas) <=
    computeOverallScore (adjustedValues b (applyPreset sc)).
Proof.
  intros Hin. unfold presetScenarios in Hin.
  repeat (destruct Hin as [<- | Hin]); [.. | destruct Hin];
    unfold adjustedValues, applyPreset, zeroDeltas;
    cbn [adjustments satisfaction training workHours overtime sickDays
         satisfactionDelta trainingDelta workHoursDelta overtimeDelta sickDaysDelta];
    values_simpl; js_unfold;
    apply computeOverallScore_mono; q_cases.
Qed.

(** X6: no preset of the table lowers the score: for every baseline, the
    values adjusted by a preset score at least as much as the values adjusted
    by no delta at all; for a baseline inside the domains the comparison run
    on the preset's values therefore reports a delta and a percent change
    that are not negative. *)
Theorem presets_never_lower_the_score (sc : Scenario) (b : Values.t Q) :
  In sc presetScenarios ->
  computeOverallScore (adjustedValues b zeroDeltas) <=
    computeOverallScore (adjustedValues b (applyPreset sc)) /\
  (inDomain b = true ->
   0 <= delta (runSimulation b (adjustedValues b (applyPreset sc))) /\
   0 <= percentChange (runSimulation b (adjustedValues b (applyPreset sc)))).
Proof.
  intros Hin. pose proof (preset_improves_score sc b Hin) as Hup.
  split; [exact Hup |]. intros Hdom.
  rewrite (adjustedValues_zero b Hdom) in Hup.
  assert (Hd : 0 <= delta (runSimulation b (adjustedValues b (applyPreset sc)))).
  { pose proof (delta_exact b (adjustedValues b (applyPreset sc))) as Hd.
    apply round1_mono in Hup.
    rewrite baselineScore_eq, newScore_eq in Hd. lra. }
  split; [exact Hd |].
  apply percentChange_sign; [| exact Hd].
  pose proof (computeOverallScore_inDomain b Hdom) as H9.
  apply round1_at_least_9 in H9. rewrite baselineScore_eq. lra.
Qed.

Lemma presets_never_lower_witness :
  0 <= delta (runSimulation (N:=Q) baseline (adjustedValues baseline (applyPreset trainingBoost))).
Proof.
  assert (Hin : In trainingBoost presetScenarios) by (left; reflexivity).
  assert (Hdom : inDomain baseline = true) by (vm_compute; reflexivity).
  destruct (presets_never_lower_the_score trainingBoost baseline Hin) as [_ Hd].
  apply Hd, Hdom.
Defined.

(** *** Impact entries *)

Lemma entryAt_eq (b a : Values.t Q) :
  entryAt 0 (runSimulation b a) =
    impactEntry "Satisfaction" (computeFactorScore "satisfaction" (Values.satisfaction a))
      (computeFactorScore "satisfaction" (Values.satisfaction b)) 0.30 /\
  entryAt 1 (runSimulation b a) =
    impactEntry "Training" (computeFactorScore "training" (Values.trainingHours a))
      (computeFactorScore "training" (Values.trainingHours b)) 0.25 /\
  entryAt 2 (runSimulation b a) =
    impactEntry "Work Hours" (computeFactorScore "workHours" (Values.workHours a))
      (computeFactorScore "workHours" (Values.workHours b)) 0.18 /\
  entryAt 3 (runSimulation b a) =
    impactEntry "Overtime" (computeFactorScore "overtime" (Values.overtime a))
      (computeFactorScore "overtime" (Values.overtime b)) 0.15 /\
  entryAt 4 (runSimulation b a) =
    impactEntry "Sick Days" (computeFactorScore "sickDays" (Values.sickDays a))
      (computeFactorScore "sickDays" (Values.sickDays b)) 0.12.
Proof. repeat split. Qed.

(** X7: a factor whose slider stays at 0 has a neutral entry of impact 0,
    provided the baseline lies inside the domains: the entry of a factor
    depends on the value of that factor alone. *)
Theorem untouched_factor_is_neutral (b : Values.t Q) (d : Deltas Q) :
  inDomain b = true ->
  (satisfactionDelta d == 0 ->
   direction (entryAt 0 (runSimulation b (adjustedValues b d))) = neutral /\
   impact (entryAt 0 (runSimulation b (adjustedValues b d))) == 0) /\
  (trainingDelta d == 0 ->
   direction (entryAt 1 (runSimulation b (adjustedValues b d))) = neutral /\
   impact (entryAt 1 (runSimulation b (adjustedValues b d))) == 0) /\
  (workHoursDelta d == 0 ->
   direction (entryAt 2 (runSimulation b (adjustedValues b d))) = neutral /\
   impact (entryAt 2 (runSimulation b (adjustedValues b d))) == 0) /\
  (overtimeDelta d == 0 ->
   direction (entryAt 3 (runSimulation b (adjustedValues b d))) = neutral /\
   impact (entryAt 3 (runSimulation b (adjustedValues b d))) == 0) /\
  (sickDaysDelta d == 0 ->
   direction (entryAt 4 (runSimulation b (adjustedValues b d))) = neutral /\
   impact (entryAt 4 (runSimulation b (adjustedValues b d))) == 0).
Proof.
  rewrite inDomain_iff. intros (Hs & Ht & Hw & Ho & Hd).
  destruct (entryAt_eq b (adjustedValues b d)) as (-> & -> & -> & -> & ->).
  unfold adjustedValues; values_simpl; js_unfold.
  split; [| split; [| split; [| split]]]; intros Hz;
    apply impactEntry_unchanged, computeFactorScore_comp;
    rewrite Hz; q_cases.
Qed.

Lemma untouched_factor_witness :
  direction (entryAt 0 (runSimulation (N:=Q) baseline boosted)) = neutral /\
  impact (entryAt 0 (runSimulation (N:=Q) baseline boosted)) == 0.
Proof.
  assert (Hdom : inDomain baseline = true) by (vm_compute; reflexivity).
  destruct (untouched_factor_is_neutral baseline (applyPreset trainingBoost) Hdom)
    as (Hs & _).
  apply Hs. reflexivity.
Defined.

Lemma impactEntry_neutral_bound (label : string) (x y w : Q) :
  0 <= w <= 0.30 ->
  direction (impactEntry label x y w) = neutral ->
  -0.1 <= impact (impactEntry label x y w) <= 0.2.
Proof.
  intros Hw. unfold impactEntry; cbn [direction impact]; js_unfold.
  destruct (Qle_bool x (y + 0.5)) eqn:Eup; cbn [negb]; [| discriminate].
  destruct (Qle_bool (y - 0.5) x) eqn:Edown; cbn [negb]; [| discriminate].
  intros _. apply Qle_bool_iff in Eup, Edown.
  set (v := (x - y) * w * 10).
  assert (Hv : -1.5 <= v <= 1.5).
  { subst v.
    pose proof (Qmult_le_0_compat (y + 0.5 - x) w).
    pose proof (Qmult_le_0_compat (x - (y - 0.5)) w).
    lra. }
  assert (Hlo : inject_Z (-1) <= Qround_half_up v).
  { apply Qround_half_up_lower. change (inject_Z (-1)) with (-1). lra. }
  assert (Hhi : Qround_half_up v <= inject_Z (3 - 1)).
  { apply Qround_half_up_upper. change (inject_Z 3) with 3. lra. }
  change (inject_Z (-1)) with (-1) in Hlo. change (inject_Z (3 - 1)) with 2 in Hhi.
  q_consts. lra.
Qed.

(** X8: the direction is decided on the unweighted score and the impact on
    the weighted one, so an entry of direction neutral need not have impact
    0: its impact lies between -0.1 and 0.2.  A satisfaction of 3.82 against
    3.8 moves the score by exactly 0.5: the entry is neutral with impact
    0.2. *)
Theorem neutral_entry_impact_bounds (b a : Values.t Q) :
  Forall (fun e => direction e = neutral -> -0.1 <= impact e <= 0.2)
    (impactBreakdown (runSimulation b a)) /\
  direction (entryAt 0 (runSimulation baseline slightlyHappier)) = neutral /\
  impact (entryAt 0 (runSimulation baseline slightlyHappier)) == 0.2.
Proof.
  split; [| split; reflexivity].
  rewrite impactBreakdown_eq.
  repeat (apply Forall_cons;
          [apply impactEntry_neutral_bound; split; discriminate |]).
  apply Forall_nil.
Qed.

Lemma neutral_entry_witness :
  -0.1 <= impact (impactEntry "Satisfaction"
                    (satisfaction (factorScores (N:=Q) slightlyHappier))
                    (satisfaction (factorScores (N:=Q) baseline)) 0.30) <= 0.2.
Proof.
  pose proof (proj1 (neutral_entry_impact_bounds baseline slightlyHappier)) as Hall.
  rewrite impactBreakdown_eq, Forall_forall in Hall.
  apply Hall.
  - left; reflexivity.
  - vm_compute. reflexivity.
Defined.

(** *** Overtime *)



(** ** The charts *)

Lemma Math_round_score (f : string) (v : Q) :
  wholeScore (Math_round (computeFactorScore f v)).
Proof.
  pose proof (computeFactorScore_range f v) as [Hlo Hhi].
  change (wholeScore (Qround_half_up (computeFactorScore f v))).
  exists (Qfloor (computeFactorScore f v + (1 # 2))). split; [| reflexivity].
  split.
  - apply (Qfloor_resp_le 0). lra.
  - apply (Qfloor_resp_le _ 100.5). lra.
Qed.

(** X10: both charts plot whole numbers between 0 and 100, the range of
    their axes, whatever the baseline and the adjusted values are; the radar
    chart carries the same labels and the same numbers as the bar chart, in
    the same order; and in binary64 the five weights times 100 are exactly
    30, 25, 18, 15 and 12. *)
Theorem charts_plot_whole_scores (toString : Q -> string) (b a : Values.t Q) :
  Forall (fun row => wholeScore (Bar.baseline row) /\ wholeScore (Bar.adjusted row))
    (comparisonChartData toString b a) /\
  map (fun row => (Radar.metric row, Radar.baseline row, Radar.adjusted row)) (radarData b a) =
    map (fun row => (Bar.factor row, Bar.baseline row, Bar.adjusted row))
      (comparisonChartData toString b a) /\
  weightPercents (N:=PrimFloat.float) = [lit 30; lit 25; lit 18; lit 15; lit 12].
Proof.
  split; [| split; reflexivity].
  unfold comparisonChartData, factorScores;
    cbn [satisfaction training workHours overtime sickDays].
  repeat (apply Forall_cons;
          [cbn [Bar.baseline Bar.adjusted]; split; apply Math_round_score |]).
  apply Forall_nil.
Qed.

(** ** The component *)

Section ComponentFacts.

Context {N : Type} `{JSNumber N}.

Import Component.

#[local] Abbreviation timer := (nat * Callback N)%type.

Lemma find_fresh (l : list timer) (n : nat) (cb : Callback N) :
  Forall (fun t => fst t < n)%nat l ->
  find (fun t => Nat.eqb (fst t) n) (l ++ [(n, cb)]) = Some (n, cb).
Proof.
  induction 1 as [| t l Ht _ IH]; cbn.
  - rewrite Nat.eqb_refl. reflexivity.
  - destruct (Nat.eqb_spec (fst t) n) as [E | _]; [lia | exact IH].
Qed.

Lemma filter_fresh (l : list timer) (n : nat) (cb : Callback N) :
  Forall (fun t => fst t < n)%nat l ->
  filter (fun t => negb (Nat.eqb (fst t) n)) (l ++ [(n, cb)]) = l.
Proof.
  induction 1 as [| t l Ht _ IH]; cbn.
  - rewrite Nat.eqb_refl. reflexivity.
  - destruct (Nat.eqb_spec (fst t) n) as [E | _]; [lia |]. cbn. rewrite IH. reflexivity.
Qed.

Lemma Forall_filter (P : timer -> Prop) (f : timer -> bool) (l : list timer) :
  Forall P l -> Forall P (filter f l).
Proof.
  induction 1 as [| t l Ht _ IH]; cbn; [constructor |].
  destruct (f t); [constructor; assumption | assumption].
Qed.

Lemma NoDup_filter_ids (f : timer -> bool) (l : list timer) :
  NoDup (map fst l) -> NoDup (map fst (filter f l)).
Proof.
  induction l as [| t l IH]; cbn; intros Hnd; [constructor |].
  inversion Hnd as [| ? ? Hnotin Hrest]; subst.
  destruct (f t); cbn; [| apply IH, Hrest].
  constructor; [| apply IH, Hrest].
  intros Hin. apply Hnotin. apply in_map_iff in Hin as [u [Hu Hin]].
  apply filter_In in Hin as [Hin _]. apply in_map_iff. exists u. split; assumption.
Qed.

Lemma NoDup_fresh (l : list timer) (n : nat) (cb : Callback N) :
  Forall (fun t => fst t < n)%nat l ->
  NoDup (map fst l) -> NoDup (map fst (l ++ [(n, cb)])).
Proof.
  intros Hlt Hnd. rewrite map_app. cbn.
  apply NoDup_app; [exact Hnd | repeat constructor; intros [] |].
  intros x Hx [<- | []].
  apply in_map_iff in Hx as [t [Ht Hin]].
  rewrite Forall_forall in Hlt. specialize (Hlt t Hin). lia.
Qed.

Lemma Forall_lt_S (l : list timer) (n : nat) :
  Forall (fun t => fst t < n)%nat l -> Forall (fun t => fst t < S n)%nat l.
Proof. apply Forall_impl. intros t Ht. lia. Qed.

(** Firing the timer that was set last runs its callback on the state
    without it. *)
Lemma fire_last (st : State N) (l : list timer) (cb : Callback N) (id : nat) :
  timers st = l ++ [(id, cb)] ->
  Forall (fun t => fst t < id)%nat l ->
  fire id st = invoke cb (setTimers l st).
Proof.
  intros Ht Hlt. unfold fire, clearTimeout.
  rewrite Ht, (find_fresh l id cb Hlt), (filter_fresh l id cb Hlt). reflexivity.
Qed.

(** *** The invariant *)

Lemma invariant_initial : invariant (N:=N) initial.
Proof.
  unfold invariant, initial; cbn.
  split; [reflexivity |]. split; [constructor |]. split; [constructor |].
  split; [intros t [] |]. split; [intros t [] |].
  intros r Hr. discriminate Hr.
Qed.

(** The invariant reads the baseline, the timers, [autoRunRef] and the
    result only. *)
Lemma invariant_ext (st st' : State N) :
  baseline st' = baseline st ->
  timers st' = timers st ->
  nextTimer st' = nextTimer st ->
  autoRunRef st' = autoRunRef st ->
  result st' = result st ->
  invariant st -> invariant st'.
Proof.
  unfold invariant. intros -> -> -> -> ->. exact (fun H => H).
Qed.

Lemma invariant_clearTimeout (id : nat) (st : State N) :
  invariant st -> invariant (clearTimeout id st).
Proof.
  intros (Hb & Hlt & Hnd & Hauto & Hcap & Hres).
  unfold invariant, clearTimeout, setTimers; cbn.
  split; [exact Hb |]. split; [apply Forall_filter, Hlt |].
  split; [apply NoDup_filter_ids, Hnd |]. split; [| split; [| exact Hres]].
  - intros t Hin. apply filter_In in Hin as [Hin _]. apply Hauto, Hin.
  - intros t Hin. apply filter_In in Hin as [Hin _]. apply Hcap, Hin.
Qed.

Lemma invariant_setResult (r : ScenarioResult N) (st : State N) :
  (exists d, r = runSimulation initialBaseline (adjustedValues initialBaseline d)) ->
  invariant st -> invariant (setResult (Some r) st).
Proof.
  intros Hr (Hb & Hlt & Hnd & Hauto & Hcap & Hres).
  unfold invariant, setResult; cbn.
  split; [exact Hb |]. split; [exact Hlt |]. split; [exact Hnd |].
  split; [exact Hauto |]. split; [exact Hcap |].
  intros r' Heq. injection Heq as <-. exact Hr.
Qed.

Lemma invariant_setTimeout_Finish (b a : Values.t N) (st : State N) :
  fromSliders b a ->
  invariant st -> invariant (snd (setTimeout (Finish b a) st)).
Proof.
  intros Hba (Hb & Hlt & Hnd & Hauto & Hcap & Hres).
  unfold invariant, setTimeout; cbn.
  split; [exact Hb |]. split; [| split; [| split; [| split]]].
  - apply Forall_app. split; [apply Forall_lt_S, Hlt |].
    repeat constructor.
  - apply NoDup_fresh; assumption.
  - intros t Hin Hrun. apply in_app_or in Hin as [Hin | [<- | []]].
    + apply Hauto; assumption.
    + discriminate Hrun.
  - intros t Hin. apply in_app_or in Hin as [Hin | [<- | []]].
    + apply Hcap, Hin.
    + exact Hba.
  - exact Hres.
Qed.

Lemma invariant_invoke (cb : Callback N) (st : State N) :
  fromSliders (fst (captured cb)) (snd (captured cb)) ->
  invariant st -> invariant (invoke cb st).
Proof.
  intros Hcb Hinv. destruct cb as [b a | b a]; cbn in Hcb; cbn [invoke].
  - unfold runSimulationOf. apply invariant_setTimeout_Finish; [exact Hcb |].
    revert Hinv. apply invariant_ext; reflexivity.
  - unfold finishSimulation.
    assert (Hr : invariant (setResult (Some (runSimulation b a)) st)).
    { apply invariant_setResult; [| exact Hinv].
      destruct Hcb as [-> [d ->]]. exists d. reflexivity. }
    revert Hr. apply invariant_ext; reflexivity.
Qed.

Lemma invariant_fire (id : nat) (st : State N) :
  invariant st -> invariant (fire id st).
Proof.
  intros Hinv. unfold fire.
  destruct (find (fun t => Nat.eqb (fst t) id) (timers st)) as [[id' cb] |] eqn:Hfind;
    [| exact Hinv].
  apply find_some in Hfind as [Hin _].
  apply invariant_invoke.
  - destruct Hinv as (_ & _ & _ & _ & Hcap & _). exact (Hcap _ Hin).
  - apply invariant_clearTimeout, Hinv.
Qed.

Lemma invariant_onApplyPreset (scenario : Scenario) (st : State N) :
  invariant st -> invariant (onApplyPreset scenario st).
Proof.
  intros Hinv.
  set (st1 := setDeltas (applyPreset scenario)
                (setActiveScenario (Some (name scenario)) st)).
  assert (H1 : invariant st1) by (revert Hinv; apply invariant_ext; reflexivity).
  set (st2 := match autoRunRef st with
              | Some id => clearTimeout id st1
              | None => st1
              end).
  assert (H2 : invariant st2).
  { subst st2. destruct (autoRunRef st); [apply invariant_clearTimeout |]; exact H1. }
  assert (Hnone : forall t, In t (timers st2) -> isAutoRun t = false).
  { intros t Hin. destruct (isAutoRun t) eqn:Hrun; [| reflexivity]. exfalso.
    destruct Hinv as (_ & _ & _ & Hauto & _).
    subst st2. destruct (autoRunRef st) as [id |] eqn:Href.
    - cbn in Hin. apply filter_In in Hin as [Hin Hne].
      specialize (Hauto t Hin Hrun). injection Hauto as ->.
      rewrite Nat.eqb_refl in Hne. discriminate Hne.
    - specialize (Hauto t Hin Hrun). discriminate Hauto. }
  change (onApplyPreset scenario st)
    with (setAutoRunRef (Some (nextTimer st2))
            (snd (setTimeout (AutoRun (baseline st) (adjustedValuesOf st)) st2))).
  destruct H2 as (Hb & Hlt & Hnd & _ & Hcap & Hres).
  unfold invariant, setAutoRunRef, setTimeout; cbn.
  split; [exact Hb |]. split; [| split; [| split; [| split]]].
  - apply Forall_app. split; [apply Forall_lt_S, Hlt |]. repeat constructor.
  - apply NoDup_fresh; assumption.
  - intros t Hin Hrun. apply in_app_or in Hin as [Hin | [<- | []]].
    + rewrite (Hnone t Hin) in Hrun. discriminate Hrun.
    + reflexivity.
  - intros t Hin. apply in_app_or in Hin as [Hin | [<- | []]].
    + apply Hcap, Hin.
    + cbn. destruct Hinv as (Hb0 & _). split; [exact Hb0 |].
      exists (deltas st). unfold adjustedValuesOf. rewrite Hb0. reflexivity.
  - exact Hres.
Qed.

Lemma invariant_step (e : Event N) (st : State N) :
  invariant st -> invariant (step e st).
Proof.
  intros Hinv. destruct e as [scenario | | | s v | d | id]; cbn [step].
  - apply invariant_onApplyPreset, Hinv.
  - unfold onRunSimulation. destruct (isSimulating st); [exact Hinv |].
    apply (invariant_invoke (AutoRun (baseline st) (adjustedValuesOf st)) st);
      [| exact Hinv].
    cbn. destruct Hinv as (Hb0 & _). split; [exact Hb0 |].
    exists (deltas st). unfold adjustedValuesOf. rewrite Hb0. reflexivity.
  - destruct Hinv as (Hb & Hlt & Hnd & Hauto & Hcap & Hres).
    unfold invariant, resetAll; cbn.
    split; [exact Hb |]. split; [exact Hlt |]. split; [exact Hnd |].
    split; [exact Hauto |]. split; [exact Hcap |].
    intros r Hr. discriminate Hr.
  - revert Hinv. apply invariant_ext; reflexivity.
  - revert Hinv. apply invariant_ext; reflexivity.
  - apply invariant_fire, Hinv.
Qed.

Lemma invariant_run (events : list (Event N)) (st : State N) :
  invariant st -> invariant (run events st).
Proof.
  revert st. induction events as [| e events IH]; intros st Hinv; cbn.
  - exact Hinv.
  - apply IH, invariant_step, Hinv.
Qed.

(** *** Handlers followed by their timers *)

(** A preset is clicked in a state [s] and its two timers fire: the result is
    the comparison for the values of [s], before the click. *)
Lemma preset_settles (scenario : Scenario) (s : State N) :
  Forall (fun t => fst t < nextTimer s)%nat (timers s) ->
  let s' := fire (S (nextTimer s)) (fire (nextTimer s) (onApplyPreset scenario s)) in
  result s' = Some (runSimulation (baseline s) (adjustedValuesOf s)) /\
  deltas s' = applyPreset scenario /\
  activeScenario s' = Some (name scenario) /\
  isSimulating s' = false /\
  baseline s' = baseline s /\
  nextTimer s' = S (S (nextTimer s)) /\
  Forall (fun t => fst t < nextTimer s')%nat (timers s').
Proof.
  intros Hfresh.
  set (l := match autoRunRef s with
            | Some id => filter (fun t => negb (Nat.eqb (fst t) id)) (timers s)
            | None => timers s
            end).
  assert (Hl : Forall (fun t => fst t < nextTimer s)%nat l).
  { subst l. destruct (autoRunRef s); [apply Forall_filter |]; exact Hfresh. }
  assert (Ht : timers (onApplyPreset scenario s) =
               l ++ [(nextTimer s, AutoRun (baseline s) (adjustedValuesOf s))]).
  { subst l. unfold onApplyPreset. destruct (autoRunRef s); reflexivity. }
  cbn zeta. rewrite (fire_last _ _ _ _ Ht Hl). cbn [invoke].
  assert (Ht1 : timers (runSimulationOf (baseline s) (adjustedValuesOf s)
                          (setTimers l (onApplyPreset scenario s))) =
                l ++ [(S (nextTimer s), Finish (baseline s) (adjustedValuesOf s))]).
  { unfold onApplyPreset. destruct (autoRunRef s); reflexivity. }
  rewrite (fire_last _ _ _ _ Ht1 (Forall_lt_S _ _ Hl)). cbn [invoke].
  unfold onApplyPreset.
  destruct (autoRunRef s); cbn;
    repeat split; try reflexivity; apply Forall_lt_S, Forall_lt_S, Hl.
Qed.

(** "Run Simulation" is clicked in a state [s] and its timer fires: the
    result is the comparison for the values of [s]. *)
Lemma run_settles (s : State N) :
  Forall (fun t => fst t < nextTimer s)%nat (timers s) ->
  isSimulating s = false ->
  let s' := fire (nextTimer s) (onRunSimulation s) in
  result s' = Some (runSimulation (baseline s) (adjustedValuesOf s)) /\
  deltas s' = deltas s /\
  activeScenario s' = activeScenario s /\
  isSimulating s' = false /\
  baseline s' = baseline s.
Proof.
  intros Hfresh Hidle. unfold onRunSimulation. rewrite Hidle.
  assert (Ht : timers (runSimulationOf (baseline s) (adjustedValuesOf s) s) =
               timers s ++ [(nextTimer s, Finish (baseline s) (adjustedValuesOf s))])
    by reflexivity.
  cbn zeta. rewrite (fire_last _ _ _ _ Ht Hfresh). cbn. repeat split.
Qed.

End ComponentFacts.

(** *** What the user sees *)

Lemma reachable_fresh {N : Type} `{JSNumber N} (events : list (Component.Event N)) :
  Forall (fun t => fst t < Component.nextTimer (Component.run events Component.initial))%nat
    (Component.timers (Component.run events Component.initial)).
Proof.
  apply (invariant_run events Component.initial invariant_initial).
Qed.

Lemma reachable_baseline {N : Type} `{JSNumber N} (events : list (Component.Event N)) :
  Component.baseline (Component.run events Component.initial) = baseline.
Proof.
  apply (invariant_run events Component.initial invariant_initial).
Qed.

Lemma run_app {N : Type} `{JSNumber N} (e1 e2 : list (Component.Event N))
  (st : Component.State N) :
  Component.run (e1 ++ e2) st = Component.run e2 (Component.run e1 st).
Proof. apply fold_left_app. Qed.

(** X11: the auto-run of a preset is stale.  In any state the component can
    reach, clicking a preset and letting its two timers fire shows the
    sliders of the preset, marks the preset active and stops the spinner, but
    the result shown is the comparison for the sliders as they were before
    the click: the timer calls the [runSimulation] of the render in which the
    preset was clicked.  From the first render, "Training Boost" shows a
    delta of 0, where the comparison for its own values has 6.3; so it is in
    binary64. *)
Theorem preset_auto_run_is_stale {N : Type} `{JSNumber N}
  (events : list (Component.Event N)) (scenario : Scenario) :
  let st := Component.run events Component.initial in
  let n := Component.nextTimer st in
  let st' := Component.run
               [Component.ClickPreset scenario; Component.Fire n; Component.Fire (S n)] st in
  Component.deltas st' = applyPreset scenario /\
  Component.activeScenario st' = Some (name scenario) /\
  Component.isSimulating st' = false /\
  Component.result st' =
    Some (runSimulation baseline (adjustedValues baseline (Component.deltas st))) /\
  (delta (runSimulation (N:=Q) baseline (adjustedValues baseline zeroDeltas)) == 0 /\
   delta (runSimulation (N:=Q) baseline (adjustedValues baseline (applyPreset trainingBoost)))
     == 6.3 /\
   option_map delta
     (Component.result
        (Component.run
           [Component.ClickPreset trainingBoost; Component.Fire 1; Component.Fire 2]
           (Component.initial (N:=PrimFloat.float)))) = Some (lit 0)).
Proof.
  cbn zeta.
  destruct (preset_settles scenario _ (reachable_fresh events))
    as (Hr & Hd & Ha & Hs & _).
  cbn [Component.run fold_left Component.step].
  split; [exact Hd |]. split; [exact Ha |]. split; [exact Hs |]. split.
  - rewrite Hr. unfold Component.adjustedValuesOf.
    rewrite reachable_baseline. reflexivity.
  - repeat split; vm_compute; reflexivity.
Qed.

(** X12: the stale result is repaired by a second activation.  After a
    preset was clicked and its timers fired, clicking "Run Simulation", or
    the same preset once more, and letting the timers fire shows the
    comparison for the preset's own values. *)
Theorem second_run_shows_the_preset {N : Type} `{JSNumber N}
  (events : list (Component.Event N)) (scenario : Scenario) :
  let st := Component.run events Component.initial in
  let n := Component.nextTimer st in
  Component.result
    (Component.run
       [Component.ClickPreset scenario; Component.Fire n; Component.Fire (S n);
        Component.ClickRun; Component.Fire (S (S n))] st) =
    Some (runSimulation baseline (adjustedValues baseline (applyPreset scenario))) /\
  Component.result
    (Component.run
       [Component.ClickPreset scenario; Component.Fire n; Component.Fire (S n);
        Component.ClickPreset scenario; Component.Fire (S (S n));
        Component.Fire (S (S (S n)))] st) =
    Some (runSimulation baseline (adjustedValues baseline (applyPreset scenario))).
Proof.
  cbn zeta.
  destruct (preset_settles scenario _ (reachable_fresh events))
    as (_ & Hd & _ & Hs & Hb & Hn & Hfresh).
  cbn zeta in Hd, Hs, Hb, Hn, Hfresh.
  cbn [Component.run fold_left Component.step].
  set (s3 := Component.fire _ (Component.fire _ (Component.onApplyPreset scenario _))) in *.
  rewrite reachable_baseline in Hb.
  split.
  - destruct (run_settles s3 Hfresh Hs) as (Hr & _).
    cbn zeta in Hr. rewrite Hn in Hr. rewrite Hr.
    unfold Component.adjustedValuesOf. rewrite Hb, Hd. reflexivity.
  - destruct (preset_settles scenario s3 Hfresh) as (Hr & _).
    cbn zeta in Hr. rewrite Hn in Hr. rewrite Hr.
    unfold Component.adjustedValuesOf. rewrite Hb, Hd. reflexivity.
Qed.

Lemma one_auto_run {N : Type} (l : list (nat * Component.Callback N)) (id : nat) :
  NoDup (map fst l) ->
  (forall t, In t l -> Component.isAutoRun t = true -> fst t = id) ->
  (List.length (filter Component.isAutoRun l) <= 1)%nat.
Proof.
  induction l as [| t l IH]; cbn; intros Hnd Hid; [lia |].
  inversion Hnd as [| ? ? Hnotin Hrest]; subst.
  destruct (Component.isAutoRun t) eqn:Hrun.
  - assert (Hnone : filter Component.isAutoRun l = []).
    { destruct (filter Component.isAutoRun l) as [| u rest] eqn:Hf; [reflexivity |].
      exfalso. assert (Hu : In u (filter Component.isAutoRun l)) by (rewrite Hf; left; reflexivity).
      apply filter_In in Hu as [Hin Hurun].
      apply Hnotin. rewrite (Hid t (or_introl eq_refl) Hrun).
      rewrite <- (Hid u (or_intror Hin) Hurun). apply in_map, Hin. }
    cbn. rewrite Hnone. cbn. lia.
  - apply IH; [exact Hrest |]. intros u Hin. apply Hid. right. exact Hin.
Qed.

(** X13: at most one auto-run is pending at any time, since [applyPreset]
    clears the one [autoRunRef] holds before it sets the next; the pending
    timers have distinct identifiers; and after the cleanup of the unmount
    no auto-run is pending. *)
Theorem at_most_one_pending_auto_run {N : Type} `{JSNumber N}
  (events : list (Component.Event N)) :
  let st := Component.run events Component.initial in
  (List.length (filter Component.isAutoRun (Component.timers st)) <= 1)%nat /\
  NoDup (map fst (Component.timers st)) /\
  filter Component.isAutoRun (Component.timers (Component.cleanup st)) = [].
Proof.
  cbn zeta.
  destruct (invariant_run events Component.initial invariant_initial)
    as (_ & _ & Hnd & Hauto & _).
  set (st := Component.run events Component.initial) in *.
  split; [| split; [exact Hnd |]].
  - destruct (Component.autoRunRef st) as [id |] eqn:Href.
    + apply (one_auto_run _ id Hnd). intros t Hin Hrun.
      specialize (Hauto t Hin Hrun). congruence.
    + apply (one_auto_run _ 0%nat Hnd). intros t Hin Hrun.
      specialize (Hauto t Hin Hrun). congruence.
  - destruct (filter Component.isAutoRun (Component.timers (Component.cleanup st)))
      as [| u rest] eqn:Hf; [reflexivity |].
    exfalso.
    assert (Hu : In u (filter Component.isAutoRun (Component.timers (Component.cleanup st))))
      by (rewrite Hf; left; reflexivity).
    apply filter_In in Hu as [Hin Hrun].
    unfold Component.cleanup in Hin.
    destruct (Component.autoRunRef st) as [id |] eqn:Href.
    + cbn in Hin. apply filter_In in Hin as [Hin Hne].
      specialize (Hauto u Hin Hrun). injection Hauto as ->.
      rewrite Nat.eqb_refl in Hne. discriminate Hne.
    + specialize (Hauto u Hin Hrun). discriminate Hauto.
Qed.

Lemma round1_at_most_100 (x : Q) : x <= 100 -> round1 x <= 100.
Proof.
  intros Hx. apply round1_mono in Hx.
  assert (E : round1 100 == 100) by reflexivity. lra.
Qed.

(** X14: every result the component ever shows is the comparison of the
    initial baseline with adjusted values made from it by some position of
    the sliders, because the baseline is never set again.  Hence the
    "Current Score" of the result equals the "Current Baseline Score" badge;
    in exact arithmetic it is 68.8 and the projected score lies between 9 and
    100. *)
Theorem results_come_from_the_sliders {N : Type} `{JSNumber N}
  (events : list (Component.Event N)) (r : ScenarioResult N) :
  Component.result (Component.run events Component.initial) = Some r ->
  (exists d, r = runSimulation baseline (adjustedValues baseline d)) /\
  baselineScore r = Component.baselineBadge (Component.run events Component.initial) /\
  (forall (eventsQ : list (Component.Event Q)) (q : ScenarioResult Q),
     Component.result (Component.run eventsQ Component.initial) = Some q ->
     baselineScore q == 68.8 /\ 9 <= newScore q <= 100).
Proof.
  intros Hr.
  assert (Hfrom : forall (M : Type) (HM : JSNumber M) (ev : list (Component.Event M))
                         (x : ScenarioResult M),
             Component.result (Component.run ev Component.initial) = Some x ->
             exists d, x = runSimulation baseline (adjustedValues baseline d)).
  { intros M HM ev x Hx.
    destruct (invariant_run ev Component.initial invariant_initial)
      as (_ & _ & _ & _ & _ & Hres).
    exact (Hres x Hx). }
  split; [exact (Hfrom N _ events r Hr) | split].
  - destruct (Hfrom N _ events r Hr) as [d ->].
    unfold Component.baselineBadge. rewrite reachable_baseline. reflexivity.
  - intros eventsQ q Hq. destruct (Hfrom Q _ eventsQ q Hq) as [d ->].
    split; [reflexivity |].
    rewrite newScore_eq. split.
    + apply round1_at_least_9, computeOverallScore_inDomain, adjustedValues_inDomain.
    + apply round1_at_most_100, computeOverallScore_range.
Qed.

Lemma results_come_from_the_sliders_witness :
  exists d : Deltas Q,
    runSimulation baseline (adjustedValues baseline zeroDeltas) =
    runSimulation baseline (adjustedValues baseline d).
Proof.
  apply (results_come_from_the_sliders
           [Component.ClickRun; Component.Fire 1]
           (runSimulation baseline (adjustedValues baseline zeroDeltas))).
  reflexivity.
Defined.

(** X15: [resetAll] does not cancel a running simulation.  In a state with
    the spinner off, clicking "Run Simulation" and then the reset button
    before the timer fires leaves the sliders at 0 and no preset active, and
    yet the result shown once the timer fires is the comparison for the
    sliders as they were when the simulation was started. *)
Theorem reset_does_not_cancel_a_simulation {N : Type} `{JSNumber N}
  (events : list (Component.Event N)) :
  let st := Component.run events Component.initial in
  Component.isSimulating st = false ->
  let st' := Component.run
               [Component.ClickRun; Component.ClickReset;
                Component.Fire (Component.nextTimer st)] st in
  Component.deltas st' = zeroDeltas /\
  Component.activeScenario st' = None /\
  Component.result st' =
    Some (runSimulation baseline (adjustedValues baseline (Component.deltas st))).
Proof.
  cbn zeta. intros Hidle.
  pose proof (reachable_fresh events) as Hfresh.
  pose proof (reachable_baseline events) as Hb.
  set (st := Component.run events Component.initial) in *.
  cbn [Component.run fold_left Component.step].
  unfold Component.onRunSimulation. rewrite Hidle.
  assert (Ht : Component.timers
                 (Component.resetAll
                    (Component.runSimulationOf (Component.baseline st)
                       (Component.adjustedValuesOf st) st)) =
               Component.timers st ++
               [(Component.nextTimer st,
                 Component.Finish (Component.baseline st) (Component.adjustedValuesOf st))])
    by reflexivity.
  rewrite (fire_last _ _ _ _ Ht Hfresh). cbn.
  unfold Component.adjustedValuesOf. rewrite Hb. repeat split.
Qed.

Lemma reset_does_not_cancel_witness :
  Component.result
    (Component.run [Component.ClickRun; Component.ClickReset; Component.Fire 1]
       (Component.initial (N:=Q))) =
  Some (runSimulation baseline (adjustedValues baseline zeroDeltas)).
Proof.
  apply (reset_does_not_cancel_a_simulation (N:=Q) []). reflexivity.
Defined.

(** ** Navigation *)

Lemma slice_partition {A : Type} (l : list A) (n : nat) :
  slice 0 (Some n) l ++ slice n None l = l.
Proof.
  unfold slice. rewrite Nat.sub_0_r. cbn [skipn]. apply firstn_skipn.
Qed.

(** Case analysis of a section name against the eleven entries of the bar. *)
Ltac nav_cases a :=
  repeat match goal with
         | |- context [String.eqb a ?s] =>
             destruct (String.eqb_spec a s); [subst a |]
         end.

(** X16: the tablet bar splits the entries in two without losing or
    repeating one, whatever their number.  For every active section the
    desktop bar and the tablet bar highlight the same number of buttons, at
    most one; exactly one when the active section is an entry other than
    Home, which is never highlighted. *)
Theorem one_highlight_per_bar (activeSection : string) :
  (forall (A : Type) (l : list A) (n : nat), slice 0 (Some n) l ++ slice n None l = l) /\
  TopNav.visibleItems ++ TopNav.moreItems = TopNav.navItems /\
  TopNav.tabletHighlights activeSection = TopNav.desktopHighlights activeSection /\
  (TopNav.desktopHighlights activeSection <= 1)%nat /\
  (TopNav.desktopHighlights activeSection = 1%nat <->
   In activeSection (map TopNav.id TopNav.navItems) /\ activeSection <> "home"%string).
Proof.
  split; [intros A l n; apply slice_partition |].
  split; [apply slice_partition |].
  unfold TopNav.tabletHighlights, TopNav.desktopHighlights, TopNav.moreIsActive,
    TopNav.isActive.
  cbn. nav_cases activeSection; cbn.
  all: split; [reflexivity | split; [lia |]].
  all: split;
    [ intros Hone;
      first [ discriminate Hone
            | split; [repeat ((left; reflexivity) || right) | discriminate] ]
    | intros [Hin Hne]; first [reflexivity | exfalso; intuition congruence] ].
Qed.

Lemma find_by_id {A : Type} (key : A -> string) (l : list A) (a : string) :
  match find (fun x => String.eqb (key x) a) l with
  | Some x => In x l /\ key x = a
  | None => ~ In a (map key l)
  end.
Proof.
  destruct (find (fun x => String.eqb (key x) a) l) as [x |] eqn:Hfind.
  - apply find_some in Hfind as [Hin Heq]. apply String.eqb_eq in Heq. split; assumption.
  - intros Hin. apply in_map_iff in Hin as [x [Hkey Hin]].
    pose proof (find_none _ _ Hfind x Hin) as Hne. cbn in Hne.
    rewrite Hkey, String.eqb_refl in Hne. discriminate Hne.
Qed.

(** X17: the header of the dashboard shows the section named by
    [activeSection] when there is one, and the overview otherwise; the mobile
    title of the bar is the upper-case label of the entry, and OVERVIEW for a
    name that is no entry.  A click on an entry other than Home asks for a
    section that the dashboard has; a click on Home navigates to "/" and asks
    for none. *)
Theorem titles_fall_back_to_overview (activeSection : string) :
  (In activeSection (map Dashboard.id Dashboard.sections) ->
   Dashboard.id (Dashboard.currentSection activeSection) = activeSection) /\
  (~ In activeSection (map Dashboard.id Dashboard.sections) ->
   Dashboard.id (Dashboard.currentSection activeSection) = "overview"%string) /\
  (~ In activeSection (map TopNav.id TopNav.navItems) ->
   TopNav.mobileTitle activeSection = "OVERVIEW"%string) /\
  Forall (fun item => TopNav.mobileTitle (TopNav.id item) = toUpperCase (TopNav.label item))
    TopNav.navItems /\
  Forall (fun item =>
            TopNav.id item = "home"%string /\
            TopNav.handleNavClick (TopNav.id item) = TopNav.navigate "/" \/
            TopNav.handleNavClick (TopNav.id item) = TopNav.onSectionChange (TopNav.id item) /\
            Dashboard.id (Dashboard.currentSection (TopNav.id item)) = TopNav.id item)
    TopNav.navItems.
Proof.
  split; [| split; [| split; [| split]]].
  - intros Hin. unfold Dashboard.currentSection.
    pose proof (find_by_id Dashboard.id Dashboard.sections activeSection) as Hf.
    destruct (find _ Dashboard.sections); [apply Hf | contradiction].
  - intros Hnot. unfold Dashboard.currentSection.
    pose proof (find_by_id Dashboard.id Dashboard.sections activeSection) as Hf.
    destruct (find _ Dashboard.sections) as [s |]; [| reflexivity].
    destruct Hf as [Hin <-]. exfalso. apply Hnot, in_map, Hin.
  - intros Hnot. unfold TopNav.mobileTitle.
    pose proof (find_by_id TopNav.id TopNav.navItems activeSection) as Hf.
    destruct (find _ TopNav.navItems) as [i |]; [| reflexivity].
    destruct Hf as [Hin <-]. exfalso. apply Hnot, in_map, Hin.
  - repeat constructor.
  - unfold TopNav.navItems.
    apply Forall_cons; [left; split; reflexivity |].
    repeat (apply Forall_cons; [right; split; reflexivity |]).
    apply Forall_nil.
Qed.

Lemma titles_fall_back_witness :
  Dashboard.id (Dashboard.currentSection "whatif") = "whatif"%string /\
  Dashboard.id (Dashboard.currentSection "home") = "overview"%string /\
  TopNav.mobileTitle "settings" = "OVERVIEW"%string.
Proof.
  destruct (titles_fall_back_to_overview "whatif") as (Hin & _).
  destruct (titles_fall_back_to_overview "home") as (_ & Hout & _).
  destruct (titles_fall_back_to_overview "settings") as (_ & _ & Hnav & _).
  split; [| split].
  - apply Hin. cbn. tauto.
  - apply Hout. cbn. intuition discriminate.
  - apply Hnav. cbn. intuition discriminate.
Defined.

(** ** Scrolling *)

Section ScrollSpy.

Import Dashboard.

#[local] Abbreviation entry := (string * Q)%type.

(** The test of [handleScroll] on one section. *)
#[local] Abbreviation passed scrollTop e := (snd e - 120 - 100 <= scrollTop).

Lemma handleScroll_snoc (l : list entry) (e : entry) (scrollTop : Q) (a : string) :
  handleScroll false (l ++ [e]) scrollTop a =
    if Qle_bool (snd e - 120 - 100) scrollTop then fst e
    else handleScroll false l scrollTop a.
Proof. unfold handleScroll. rewrite fold_left_app. reflexivity. Qed.

Lemma handleScroll_none_passed (l : list entry) (scrollTop : Q) (cur : string) :
  Forall (fun e => ~ passed scrollTop e) l ->
  fold_left
    (fun currentActive e =>
       if Qle_bool (snd e - 120 - 100) scrollTop then fst e else currentActive)
    l cur = cur.
Proof.
  intros Hall. revert cur. induction Hall as [| e l He _ IH]; intros cur; cbn.
  - reflexivity.
  - destruct (Qle_bool (snd e - 120 - 100) scrollTop) eqn:E.
    + apply Qle_bool_iff in E. contradiction.
    + apply IH.
Qed.

Lemma StronglySorted_snoc (l : list entry) (x : entry) :
  StronglySorted (fun u v => snd u <= snd v) (l ++ [x]) ->
  StronglySorted (fun u v => snd u <= snd v) l /\ Forall (fun u => snd u <= snd x) l.
Proof.
  induction l as [| y l IH]; cbn; intros Hs.
  - split; constructor.
  - inversion Hs as [| ? ? Hrest Hall]; subst.
    destruct (IH Hrest) as [Hl Hx].
    apply Forall_app in Hall as [Hall Hyx].
    split; constructor; try assumption.
    inversion Hyx; assumption.
Qed.

Lemma handleScroll_deepest (l : list entry) (scrollTop : Q) (a : string) :
  StronglySorted (fun u v => snd u <= snd v) l ->
  forall e, In e l -> passed scrollTop e ->
  exists off, In (handleScroll false l scrollTop a, off) l /\
              passed scrollTop (handleScroll false l scrollTop a, off) /\
              snd e <= off.
Proof.
  induction l as [| x l IH] using rev_ind; intros Hs e Hin He; [destruct Hin |].
  apply StronglySorted_snoc in Hs as [Hl Hx].
  rewrite handleScroll_snoc.
  destruct (Qle_bool (snd x - 120 - 100) scrollTop) eqn:E.
  - apply Qle_bool_iff in E. exists (snd x). split; [| split].
    + apply in_or_app. right. left. destruct x; reflexivity.
    + exact E.
    + apply in_app_or in Hin as [Hin | [<- | []]]; [| apply Qle_refl].
      rewrite Forall_forall in Hx. apply Hx, Hin.
  - assert (Hnot : ~ passed scrollTop x) by (rewrite <- Qle_bool_iff; congruence).
    apply in_app_or in Hin as [Hin | [<- | []]]; [| contradiction].
    destruct (IH Hl e Hin He) as (off & Hoff & Hp & Hle).
    exists off. split; [apply in_or_app; left; exact Hoff | split; assumption].
Qed.

Lemma handleScroll_range (l : list entry) (scrollTop : Q) (a : string) :
  handleScroll false l scrollTop a = "overview"%string \/
  In (handleScroll false l scrollTop a) (map fst l).
Proof.
  induction l as [| x l IH] using rev_ind; [left; reflexivity |].
  rewrite handleScroll_snoc, map_app.
  destruct (Qle_bool (snd x - 120 - 100) scrollTop).
  - right. apply in_or_app. right. left. reflexivity.
  - destruct IH as [IH | IH]; [left; exact IH | right; apply in_or_app; left; exact IH].
Qed.

Lemma handleScroll_last_passed (l : list entry) (scrollTop : Q) (cur : string) :
  Exists (fun e => passed scrollTop e) l ->
  exists l1 e l2,
    l = l1 ++ e :: l2 /\ passed scrollTop e /\
    Forall (fun e' => ~ passed scrollTop e') l2 /\
    fold_left
      (fun currentActive e' =>
         if Qle_bool (snd e' - 120 - 100) scrollTop then fst e' else currentActive)
      l cur = fst e.
Proof.
  induction l as [| x l IH] using rev_ind; intros Hex; [inversion Hex |].
  rewrite fold_left_app. cbn [fold_left].
  destruct (Qle_bool (snd x - 120 - 100) scrollTop) eqn:E.
  - apply Qle_bool_iff in E. exists l, x, []. repeat split; [exact E | constructor].
  - assert (Hnot : ~ passed scrollTop x) by (rewrite <- Qle_bool_iff; congruence).
    apply Exists_app in Hex as [Hex | Hex].
    + destruct (IH Hex) as (l1 & e & l2 & -> & He & Hl2 & Hfold).
      exists l1, e, (l2 ++ [x]). split; [| split; [exact He | split; [| exact Hfold]]].
      * rewrite <- app_assoc. reflexivity.
      * apply Forall_app. split; [exact Hl2 | constructor; [exact Hnot | constructor]].
    + inversion Hex as [? ? Hx | ? ? Hx]; subst; [contradiction | inversion Hx].
Qed.

Lemma getRef_unique (before after : list entry) (s : string) (o : Q) :
  NoDup (map fst (before ++ (s, o) :: after)) ->
  getRef s (before ++ (s, o) :: after) = Some o.
Proof.
  intros Hnd. unfold getRef.
  induction before as [| x before IH]; cbn.
  - rewrite String.eqb_refl. reflexivity.
  - cbn in Hnd. inversion Hnd as [| ? ? Hnotin Hrest]; subst.
    destruct (String.eqb_spec (fst x) s) as [Heq | _]; [| apply IH, Hrest].
    exfalso. apply Hnotin. rewrite Heq, map_app. apply in_or_app. right. left. reflexivity.
Qed.

End ScrollSpy.

(** X18: the scroll handler does nothing while a click is being followed.
    Otherwise the new active section is the overview or one of the sections
    on the page; it is the overview when no section has come within 220
    pixels of the top; and when the sections are listed by increasing offset
    it is the deepest section that has: a section whose offset is at most
    the scroll position plus 220, and no section with that property lies
    below it. *)
Theorem scroll_spy_picks_the_deepest_section
  (sectionRefs : list (string * Q)) (scrollTop : Q) (activeSection : string) :
  Dashboard.handleScroll true sectionRefs scrollTop activeSection = activeSection /\
  (Dashboard.handleScroll false sectionRefs scrollTop activeSection = "overview"%string \/
   In (Dashboard.handleScroll false sectionRefs scrollTop activeSection)
      (map fst sectionRefs)) /\
  (Forall (fun e => ~ snd e - 120 - 100 <= scrollTop) sectionRefs ->
   Dashboard.handleScroll false sectionRefs scrollTop activeSection = "overview"%string) /\
  (StronglySorted (fun u v => snd u <= snd v) sectionRefs ->
   forall e, In e sectionRefs -> snd e - 120 - 100 <= scrollTop ->
   exists off,
     In (Dashboard.handleScroll false sectionRefs scrollTop activeSection, off) sectionRefs /\
     off - 120 - 100 <= scrollTop /\
     snd e <= off).
Proof.
  split; [reflexivity |]. split; [apply handleScroll_range |]. split.
  - intros Hnone. unfold Dashboard.handleScroll.
    apply (handleScroll_none_passed sectionRefs scrollTop "overview" Hnone).
  - apply handleScroll_deepest.
Qed.

Lemma scroll_spy_witness :
  Dashboard.handleScroll false [("upload"%string, 900)] 100 "whatif" = "overview"%string /\
  exists off, In (Dashboard.handleScroll false threeSections 1000 "overview", off)
                threeSections /\
              off - 120 - 100 <= 1000 /\ 900 <= off.
Proof.
  destruct (scroll_spy_picks_the_deepest_section [("upload"%string, 900)] 100 "whatif")
    as (_ & _ & Hnone & _).
  destruct (scroll_spy_picks_the_deepest_section threeSections 1000 "overview")
    as (_ & _ & _ & Hdeep).
  split.
  - apply Hnone. repeat constructor. cbn. intros Hle. apply Hle. reflexivity.
  - refine (Hdeep _ ("upload"%string, 900) _ _).
    + repeat constructor; cbn; discriminate.
    + right; left; reflexivity.
    + cbn. discriminate.
Defined.

(** X19: clicking a section and scrolling agree, unless a later section
    starts close below.  [handleSectionChange] scrolls the section to 100
    pixels below the top.  At that position the scroll handler names the
    clicked section again when every section listed after it starts more
    than 120 pixels further down.  When some section listed after it starts
    at most 120 pixels further down, the handler names the last such section
    of the list instead, which is not the clicked one. *)
Theorem click_and_scroll_agree
  (before after : list (string * Q)) (section : string) (offsetTop : Q)
  (activeSection : string) :
  NoDup (map fst (before ++ (section, offsetTop) :: after)) ->
  Dashboard.scrollTarget section (before ++ (section, offsetTop) :: after) =
    Some (offsetTop - 100) /\
  (Forall (fun e => offsetTop + 120 < snd e) after ->
   Dashboard.handleScroll false (before ++ (section, offsetTop) :: after)
     (offsetTop - 100) activeSection = section) /\
  (Exists (fun e => snd e <= offsetTop + 120) after ->
   exists l1 e l2,
     after = l1 ++ e :: l2 /\
     snd e <= offsetTop + 120 /\
     Forall (fun e' => offsetTop + 120 < snd e') l2 /\
     Dashboard.handleScroll false (before ++ (section, offsetTop) :: after)
       (offsetTop - 100) activeSection = fst e /\
     fst e <> section).
Proof.
  intros Hnd.
  assert (Hfold :
            Dashboard.handleScroll false (before ++ (section, offsetTop) :: after)
              (offsetTop - 100) activeSection =
            fold_left
              (fun currentActive e' =>
                 if Qle_bool (snd e' - 120 - 100) (offsetTop - 100) then fst e'
                 else currentActive)
              after section).
  { unfold Dashboard.handleScroll.
    change (before ++ (section, offsetTop) :: after)
      with (before ++ [(section, offsetTop)] ++ after).
    rewrite app_assoc, fold_left_app, fold_left_app. cbn [fold_left].
    js_unfold. cbn [fst snd].
    assert (E : Qle_bool (offsetTop - 120 - 100) (offsetTop - 100) = true)
      by (apply Qle_bool_iff; lra).
    rewrite E. reflexivity. }
  split; [| split].
  - unfold Dashboard.scrollTarget. rewrite (getRef_unique _ _ _ _ Hnd). reflexivity.
  - intros Hafter. rewrite Hfold. apply handleScroll_none_passed.
    revert Hafter. apply Forall_impl. intros e He. lra.
  - intros Hex. rewrite Hfold.
    assert (Hex' : Exists (fun e => snd e - 120 - 100 <= offsetTop - 100) after).
    { revert Hex. apply Exists_impl. intros e He. lra. }
    destruct (handleScroll_last_passed after (offsetTop - 100) section Hex')
      as (l1 & e & l2 & Heq & He & Hl2 & Hres).
    exists l1, e, l2. split; [exact Heq |]. split; [lra |]. split; [| split].
    + revert Hl2. apply Forall_impl. intros e' He'. lra.
    + exact Hres.
    + intros Hsame. rewrite map_app in Hnd. cbn [map fst] in Hnd.
      apply NoDup_remove_2 in Hnd. apply Hnd, in_or_app. right.
      rewrite Heq, map_app, <- Hsame. apply in_or_app. right. left. reflexivity.
Qed.

Lemma click_and_scroll_witness :
  Dashboard.handleScroll false threeSections (900 - 100) "overview" = "upload"%string /\
  exists l1 e l2,
    [("regression"%string, 1100)] = l1 ++ e :: l2 /\
    snd e <= 1000 + 120 /\
    Forall (fun e' => 1000 + 120 < snd e') l2 /\
    Dashboard.handleScroll false
      ([("overview"%string, 0)] ++ ("models"%string, 1000) :: [("regression"%string, 1100)])
      (1000 - 100) "overview" = fst e /\
    fst e <> "models"%string.
Proof.
  split.
  - destruct (click_and_scroll_agree [("overview"%string, 0)] [("prediction"%string, 2000)]
                "upload" 900 "overview") as (_ & Hagree & _).
    + repeat constructor; cbn; intuition discriminate.
    + apply Hagree. repeat constructor.
  - destruct (click_and_scroll_agree [("overview"%string, 0)] [("regression"%string, 1100)]
                "models" 1000 "overview") as (_ & _ & Hnext).
    + repeat constructor; cbn; intuition discriminate.
    + apply Hnext. constructor. cbn. discriminate.
Defined.

(** ** The overall score as a weighted mean *)


(** ** Exact arithmetic and binary64 *)

(** Where the two readings part: with the sliders at -2, -30, +12, +10 % and
    0 the percent change is -43.7 in exact arithmetic and -43.8 in binary64,
    and with the satisfaction slider at +0.3 the impact of satisfaction is
    2.3 in exact arithmetic and 2.2 in binary64. *)
Example exact_and_binary64_differ_at_ties :
  percentChange (runSimulation (N:=Q) baseline mixedSliders) == -43.7 /\
  percentChange (runSimulation (N:=PrimFloat.float) baseline mixedSliders) = lit (-43.8) /\
  impact (entryOf Component.SatisfactionSlider
            (runSimulation (N:=Q) baseline moreSatisfied)) == 2.3 /\
  impact (entryOf Component.SatisfactionSlider
            (runSimulation (N:=PrimFloat.float) baseline moreSatisfied)) = lit 2.2.
Proof. repeat split; vm_compute; reflexivity. Qed.
